(** * Dynamics 365 gateway: the [Dynamics365] class of [src/src/index.ts]

    A shallow embedding of the authenticated API gateway: the credential
    exchange ([authenticate]), the request primitive ([makeApiRequest]) and
    the typed operations built on it.  The host platform (the URL parser,
    the MSAL client, [fetch], [console.error]) is not part of the
    repository: it is a [World] that answers each call from the history of
    calls made so far, and a run reports the calls it makes. *)

From Stdlib Require Import Ascii String.
From stdpp Require Import base option list strings pretty gmap.

Open Scope string_scope.
Open Scope list_scope.
Set Warnings "-register-all".

(** ** JavaScript values *)

(** The host's numbers.  The program never computes with a number: it only
    tests one for truthiness and renders one in a template literal. *)
Class JsNumber (Num : Type) := {
  num_truthy : Num → bool;
  num_to_string : Num → string
}.

(** The safe integers, for concrete runs: a JavaScript number holds each of
    them exactly and prints it in decimal, and zero is the falsy one. *)
Record SafeInteger := {
  safe_value : Z;
  safe_value_range : (Z.abs safe_value <=? 9007199254740991)%Z = true
}.

#[export] Instance SafeInteger_JsNumber : JsNumber SafeInteger := {
  num_truthy n := negb (Z.eqb (safe_value n) 0);
  num_to_string n := pretty (safe_value n)
}.

(** Plain data as [JSON.parse] produces it, plus [undefined].  An object
    keeps its properties in insertion order. *)
Inductive JsVal {Num : Type} : Type :=
| JUndefined
| JNull
| JBool (b : bool)
| JNum (n : Num)
| JStr (s : string)
| JArr (items : list JsVal)
| JObj (props : list (string * JsVal)).
Arguments JsVal : clear implicits.

(** What a [throw] carries: an instance of [Error] (or of a subclass) with
    the name of its class and its message, or a value that is no [Error],
    known by the string that [String(v)] gives for it.  The program looks at
    nothing else of a thrown value; a thrown non-error for which [String]
    itself throws is outside this type. *)
Inductive JsThrown {Num : Type} : Type :=
| ErrorObj (cls : string) (message : string)
| NonError (rendering : string).
Arguments JsThrown : clear implicits.

(** A call either returns or throws. *)
Inductive Outcome {Num : Type} (A : Type) : Type :=
| Returned (a : A)
| Threw (e : JsThrown Num).
Arguments Outcome : clear implicits.
Arguments Returned {Num A} a.
Arguments Threw {Num A} e.

(** The double quote character, for header values that contain one. *)
Definition dquote : string := String "034"%char EmptyString.

(** ** Strings *)

(** [s.endsWith(suffix)] *)
Fixpoint endsWith (s suffix : string) : bool :=
  String.eqb s suffix ||
  match s with
  | EmptyString => false
  | String _ rest => endsWith rest suffix
  end.

(** [s.startsWith(p)], as a proposition. *)
Definition starts_with (p s : string) : Prop := ∃ rest, s = p +:+ rest.


Section Values.
Context {Num : Type} `{!JsNumber Num}.

(** [new Error(msg)] *)
Definition new_Error (msg : string) : JsThrown Num := ErrorObj "Error" msg.

(** [new TypeError(msg)], as the engine raises it. *)
Definition new_TypeError (msg : string) : JsThrown Num := ErrorObj "TypeError" msg.

(** The class an error object was constructed from: what [instanceof],
    [e.name] and [e.constructor] let a caller branch on. *)
Definition error_class (e : JsThrown Num) : option string :=
  match e with
  | ErrorObj cls _ => Some cls
  | NonError _ => None
  end.

(** ToBoolean *)
Definition truthy (v : JsVal Num) : bool :=
  match v with
  | JUndefined | JNull => false
  | JBool b => b
  | JNum n => num_truthy n
  | JStr s => negb (String.eqb s "")
  | JArr _ | JObj _ => true
  end.

(** Own property lookup of an object. *)
Fixpoint lookup_prop (key : string) (props : list (string * JsVal Num))
  : option (JsVal Num) :=
  match props with
  | [] => None
  | (k, v) :: rest => if String.eqb k key then Some v else lookup_prop key rest
  end.

(** [Array.prototype.join] on the conversions of the elements: the strings
    with commas between them, or the first failure. *)
Fixpoint join_elements (converted : list (Outcome Num string))
  : Outcome Num string :=
  match converted with
  | [] => Returned ""
  | [only] => only
  | first :: rest =>
      match first with
      | Threw e => Threw e
      | Returned head =>
          match join_elements rest with
          | Threw e => Threw e
          | Returned others => Returned (head +:+ "," +:+ others)
          end
      end
  end.

(** ToString, as a template literal [`${v}`] applies it.  An object is
    converted by its [toString] method: without an own [toString] member
    that is the inherited one, which gives ["[object Object]"]; an own
    member, which in plain data is never a function, hides it, and the
    conversion raises a [TypeError].  An array joins the conversions of its
    elements, [null] and [undefined] counting as empty, and fails with the
    first element that fails. *)
Fixpoint to_string (v : JsVal Num) : Outcome Num string :=
  match v with
  | JUndefined => Returned "undefined"
  | JNull => Returned "null"
  | JBool true => Returned "true"
  | JBool false => Returned "false"
  | JNum n => Returned (num_to_string n)
  | JStr s => Returned s
  | JArr items =>
      join_elements
        (map (λ x, match x with
                   | JUndefined | JNull => Returned ""
                   | _ => to_string x
                   end)
             items)
  | JObj props =>
      match lookup_prop "toString" props with
      | Some _ =>
          Threw (new_TypeError "Cannot convert object to primitive value")
      | None => Returned "[object Object]"
      end
  end.

(** [error instanceof Error ? error.message : String(error)] *)
Definition error_text (error : JsThrown Num) : string :=
  match error with
  | ErrorObj _ message => message
  | NonError rendering => rendering
  end.

(** [obj[key] = v] on the property list: an existing key keeps its place,
    a new key goes last. *)
Fixpoint assign_prop (key : string) (v : JsVal Num)
    (props : list (string * JsVal Num)) : list (string * JsVal Num) :=
  match props with
  | [] => [(key, v)]
  | (k, old) :: rest =>
      if String.eqb k key then (k, v) :: rest
      else (k, old) :: assign_prop key v rest
  end.

(** [v.key] for a key that no built-in prototype defines ([UserId],
    [domainname], [fullname] are the ones read): reading from [null] or
    [undefined] raises a [TypeError], a primitive or an array has no such
    property. *)
Definition get_prop (v : JsVal Num) (key : string) : Outcome Num (JsVal Num) :=
  match v with
  | JUndefined =>
      Threw (new_TypeError
        ("Cannot read properties of undefined (reading '" +:+ key +:+ "')"))
  | JNull =>
      Threw (new_TypeError
        ("Cannot read properties of null (reading '" +:+ key +:+ "')"))
  | JObj props => Returned (default JUndefined (lookup_prop key props))
  | _ => Returned JUndefined
  end.

(** [v.key = x] in strict-mode code.  On an object it updates the property
    list; on [null], [undefined] or a primitive it raises a [TypeError].
    An array would take the property, which this data model cannot hold:
    that case is given an error too and is never reached by the code below
    (see [set_prop_of_truthy_UserId]). *)
Definition set_prop (v : JsVal Num) (key : string) (x : JsVal Num)
  : Outcome Num (JsVal Num) :=
  match v with
  | JObj props => Returned (JObj (assign_prop key x props))
  | JUndefined =>
      Threw (new_TypeError
        ("Cannot set properties of undefined (setting '" +:+ key +:+ "')"))
  | JNull =>
      Threw (new_TypeError
        ("Cannot set properties of null (setting '" +:+ key +:+ "')"))
  | JBool b =>
      Threw (new_TypeError
        ("Cannot create property '" +:+ key +:+ "' on boolean '"
         +:+ (if b then "true" else "false") +:+ "'"))
  | JNum n =>
      Threw (new_TypeError
        ("Cannot create property '" +:+ key +:+ "' on number '"
         +:+ num_to_string n +:+ "'"))
  | JStr s =>
      Threw (new_TypeError
        ("Cannot create property '" +:+ key +:+ "' on string '" +:+ s +:+ "'"))
  | JArr _ =>
      Threw (new_TypeError
        ("Cannot create property '" +:+ key +:+ "' on array"))
  end.

End Values.

(** ** The host platform *)

(** The [auth] part of an MSAL [Configuration]. *)
Record MsalConfig := {
  auth_clientId : string;
  auth_authority : string;
  auth_clientSecret : string
}.

Record ClientCredentialRequest := { scopes : list string }.

(** The part of MSAL's [AuthenticationResult] that the program reads. *)
Record AuthenticationResult := { accessToken : string }.

Section Platform.
Context {Num : Type}.

(** The second argument of [fetch].  [init_body = Some v] is
    [body: JSON.stringify(v)], the JSON text of [v]; [None] is
    [body: undefined]. *)
Record RequestInit := {
  init_method : string;
  init_headers : gmap string string;
  init_body : option (JsVal Num)
}.

(** A [Response]: [response.ok], [response.status], and what awaiting
    [response.text()] and [response.json()] gives. *)
Record Response := {
  response_ok : bool;
  response_status : N;
  response_text : Outcome Num string;
  response_json : Outcome Num (JsVal Num)
}.

(** The calls the program makes to the platform, in the order made. *)
Inductive Event :=
| AcquireToken (config : MsalConfig) (request : ClientCredentialRequest)
| Fetch (url : string) (init : RequestInit)
| ConsoleError (label : string) (error : JsThrown Num).

(** The platform.  [URL_origin s] is [new URL(s).origin];
    [acquireTokenByClientCredential] is the MSAL client's method, which
    resolves to a result or to [null] ([None]) or rejects; [fetch] resolves
    to a response or rejects.  The two network calls may answer differently
    each time: they are given the calls made before this one. *)
Record World := {
  URL_origin : string → Outcome Num string;
  acquireTokenByClientCredential :
    list Event → MsalConfig → ClientCredentialRequest →
    Outcome Num (option AuthenticationResult);
  fetch : list Event → string → RequestInit → Outcome Num Response
}.

(** ** Sequential code with exceptions and platform calls *)

(** A computation is run after a history of platform calls; it returns or
    throws, and reports the calls it made itself, oldest first. *)
Definition Js (A : Type) : Type := list Event → Outcome Num A * list Event.

Definition ret {A} (a : A) : Js A := λ _, (Returned a, []).

Definition throw {A} (e : JsThrown Num) : Js A := λ _, (Threw e, []).

Definition bind {A B} (m : Js A) (k : A → Js B) : Js B :=
  λ history,
    match m history with
    | (Returned a, made) =>
        let (result, made') := k a (history ++ made) in
        (result, made ++ made')
    | (Threw e, made) => (Threw e, made)
    end.

(** [try { m } catch (error) { handler }] *)
Definition try_catch {A} (m : Js A) (handler : JsThrown Num → Js A) : Js A :=
  λ history,
    match m history with
    | (Returned a, made) => (Returned a, made)
    | (Threw e, made) =>
        let (result, made') := handler e (history ++ made) in
        (result, made ++ made')
    end.

(** Awaiting a value the platform has already determined. *)
Definition settle {A} (o : Outcome Num A) : Js A := λ _, (o, []).

(** A platform call: answered by the platform from the history so far. *)
Definition call {A} (ev : Event) (answer : list Event → Outcome Num A) : Js A :=
  λ history, (answer history, [ev]).

(** [console.error(label, error)] *)
Definition console_error (label : string) (error : JsThrown Num) : Js unit :=
  λ _, (Returned (), [ConsoleError label error]).

(** The HTTP requests among some platform calls. *)
Definition fetches (made : list Event) : list (string * RequestInit) :=
  omap (λ ev, match ev with Fetch url init => Some (url, init) | _ => None end)
       made.

(** The credential exchanges among some platform calls. *)
Definition acquisitions (made : list Event)
  : list (MsalConfig * ClientCredentialRequest) :=
  omap (λ ev, match ev with
              | AcquireToken config request => Some (config, request)
              | _ => None
              end)
       made.

End Platform.
Arguments RequestInit : clear implicits.
Arguments Response : clear implicits.
Arguments Event : clear implicits.
Arguments World : clear implicits.
Arguments Js : clear implicits.

Declare Scope js_scope.
Delimit Scope js_scope with js.
Bind Scope js_scope with Js.

Notation "'let*' x ':=' m 'in' k" := (bind m (λ x, k))
  (at level 10, x name, m at level 100, k at level 200) : js_scope.
Notation "'do' m 'then' k" := (bind m (λ _, k))
  (at level 10, m at level 100, k at level 200) : js_scope.
Open Scope js_scope.

(** ** The gateway: [class Dynamics365] *)

Record Dynamics365 := {
  clientId : string;
  clientSecret : string;
  tenantId : string;
  d365Url : string;
  (** the [ConfidentialClientApplication], which is its configuration *)
  msalInstance : MsalConfig
}.

(** [new Dynamics365(clientId, clientSecret, tenantId, d365Url)] *)
Definition new_Dynamics365 (clientId clientSecret tenantId d365Url : string)
  : Dynamics365 :=
  {| clientId := clientId;
     clientSecret := clientSecret;
     tenantId := tenantId;
     d365Url := d365Url;
     msalInstance :=
       {| auth_clientId := clientId;
          auth_authority := "https://login.microsoftonline.com/" +:+ tenantId;
          auth_clientSecret := clientSecret |} |}.

(** The URL a request goes to: the base URL, with a slash added unless it
    ends in one, followed by the endpoint. *)
Definition request_url (d365Url endpoint : string) : string :=
  let baseUrl := if endsWith d365Url "/" then d365Url else d365Url +:+ "/" in
  baseUrl +:+ endpoint.

(** The headers object literal before [...additionalHeaders]. *)
Definition standard_headers (token : string) : gmap string string :=
  <["OData-Version" := "4.0"]>
  (<["OData-MaxVersion" := "4.0"]>
  (<["Content-Type" := "application/json"]>
  (<["Accept" := "application/json"]>
  (<["Authorization" := "Bearer " +:+ token]> ∅)))).

(** The whole literal: a key of [additionalHeaders] replaces the standard
    one of the same name; [None] is [undefined], which spreads to nothing. *)
Definition request_headers (token : string)
    (additionalHeaders : option (gmap string string)) : gmap string string :=
  default ∅ additionalHeaders ∪ standard_headers token.

(** The two wrappers that classify a failure of the request primitive. *)
Definition auth_prefix : string := "Failed to authenticate with Dynamics 365: ".
Definition api_prefix : string := "Failed to make API request: ".

Section Gateway.
Context {Num : Type} `{!JsNumber Num} (w : World Num).

Definition authenticate (this : Dynamics365) : Js Num string :=
  let* origin := settle (URL_origin w (d365Url this)) in
  let tokenRequest := {| scopes := [origin +:+ "/.default"] |} in
  try_catch
    (let* response :=
       call (AcquireToken (msalInstance this) tokenRequest)
            (λ history, acquireTokenByClientCredential w history
                          (msalInstance this) tokenRequest) in
     match response with
     | Some result =>
         if negb (String.eqb (accessToken result) "")
         then ret (accessToken result)
         else throw (new_Error
                "Token acquisition failed: response is null or invalid.")
     | None =>
         throw (new_Error
           "Token acquisition failed: response is null or invalid.")
     end)
    (λ error,
       do console_error "Token acquisition failed:" error then
       throw (new_Error
         ("Failed to authenticate with Dynamics 365: " +:+ error_text error))).

(** [body] is [JUndefined] and [additionalHeaders] is [None] when the caller
    leaves them out. *)
Definition makeApiRequest (this : Dynamics365) (endpoint method : string)
    (body : JsVal Num) (additionalHeaders : option (gmap string string))
  : Js Num (JsVal Num) :=
  let* token := authenticate this in
  let url := request_url (d365Url this) endpoint in
  let headers := request_headers token additionalHeaders in
  try_catch
    (let init :=
       {| init_method := method;
          init_headers := headers;
          init_body :=
            if truthy body then Some body else None |} in
     let* response := call (Fetch url init) (λ history, fetch w history url init) in
     if negb (response_ok response) then
       let* text := settle (response_text response) in
       throw (new_Error
         ("API request failed with status: "
          +:+ pretty (response_status response)
          +:+ ", message: " +:+ text))
     else
       settle (response_json response))
    (λ error,
       do console_error ("API request to " +:+ url +:+ " failed:") error then
       throw (new_Error
         ("Failed to make API request: " +:+ error_text error))).

(** [data && data.UserId] is [data] itself when [data] is falsy. *)
Definition makeWhoAmIRequest (this : Dynamics365) : Js Num (JsVal Num) :=
  let* data :=
    makeApiRequest this "api/data/v9.2/WhoAmI" "GET" JUndefined None in
  let* condition :=
    (if truthy data then settle (get_prop data "UserId") else ret data) in
  if truthy condition then
    let* UserId := settle (get_prop data "UserId") in
    let* id := settle (to_string UserId) in
    let* userDetails :=
      makeApiRequest this
        ("api/data/v9.2/systemusers(" +:+ id +:+ ")")
        "GET" JUndefined
        (Some {[ "Prefer" :=
                  "odata.include-annotations=" +:+ dquote +:+ "*" +:+ dquote ]})
    in
    let* domainname := settle (get_prop userDetails "domainname") in
    let* data := settle (set_prop data "UserName" domainname) in
    let* fullname := settle (get_prop userDetails "fullname") in
    let* data := settle (set_prop data "FullName" fullname) in
    ret data
  else
    ret data.

Definition getAccounts (this : Dynamics365) : Js Num (JsVal Num) :=
  makeApiRequest this "api/data/v9.2/accounts" "GET" JUndefined None.

Definition getAssociatedContacts (this : Dynamics365) (accountId : string)
  : Js Num (JsVal Num) :=
  if String.eqb accountId "" then
    throw (new_Error "Account ID is required to fetch contacts.")
  else
    let endpoint :=
      "api/data/v9.2/contacts?$filter=_parentcustomerid_value eq "
      +:+ accountId in
    makeApiRequest this endpoint "GET" JUndefined None.

Definition getAssociatedOpportunities (this : Dynamics365)
    (accountId : string) : Js Num (JsVal Num) :=
  if String.eqb accountId "" then
    throw (new_Error "Account ID is required to fetch opportunities.")
  else
    let endpoint :=
      "api/data/v9.2/opportunities?$filter=_customerid_value eq "
      +:+ accountId in
    makeApiRequest this endpoint "GET" JUndefined None.

Definition createAccount (this : Dynamics365) (accountData : JsVal Num)
  : Js Num (JsVal Num) :=
  if negb (truthy accountData) then
    throw (new_Error "Account data is required to create an account.")
  else
    let endpoint := "api/data/v9.2/accounts" in
    makeApiRequest this endpoint "POST" accountData None.

Definition updateAccount (this : Dynamics365) (accountId : string)
    (accountData : JsVal Num) : Js Num (JsVal Num) :=
  if String.eqb accountId "" then
    throw (new_Error "Account ID is required to update an account.")
  else if negb (truthy accountData) then
    throw (new_Error "Account data is required to update an account.")
  else
    let endpoint := "api/data/v9.2/accounts(" +:+ accountId +:+ ")" in
    makeApiRequest this endpoint "PATCH" accountData None.

(** ** Parts of a run, named for the statements below *)

(** The argument of the credential exchange. *)
Definition token_request (origin : string) : ClientCredentialRequest :=
  {| scopes := [origin +:+ "/.default"] |}.

(** The second argument of the [fetch] call. *)
Definition request_init (method token : string) (body : JsVal Num)
    (additionalHeaders : option (gmap string string)) : RequestInit Num :=
  {| init_method := method;
     init_headers := request_headers token additionalHeaders;
     init_body := if truthy body then Some body else None |}.

(** The exchange, run after [history], yields the usable token [token]. *)
Definition grants (this : Dynamics365) (history : list (Event Num))
    (origin token : string) : Prop :=
  URL_origin w (d365Url this) = Returned origin ∧
  acquireTokenByClientCredential w history (msalInstance this)
    (token_request origin) = Returned (Some {| accessToken := token |}) ∧
  token ≠ "".

(** What the [catch] block of [authenticate] receives, if anything: the
    rejection of the exchange, or the error raised on a missing token. *)
Definition acquisition_failure
    (answer : Outcome Num (option AuthenticationResult))
  : option (JsThrown Num) :=
  match answer with
  | Threw e => Some e
  | Returned None =>
      Some (new_Error "Token acquisition failed: response is null or invalid.")
  | Returned (Some result) =>
      if String.eqb (accessToken result) ""
      then Some (new_Error
                   "Token acquisition failed: response is null or invalid.")
      else None
  end.

(** What the [catch] block of [makeApiRequest] does with [error]. *)
Definition api_failure (url : string) (error : JsThrown Num)
  : Outcome Num (JsVal Num) * list (Event Num) :=
  (Threw (new_Error ("Failed to make API request: " +:+ error_text error)),
   [ConsoleError ("API request to " +:+ url +:+ " failed:") error]).

(** The error raised in the [try] block on a non-success status. *)
Definition status_error (status : N) (text : string) : JsThrown Num :=
  new_Error ("API request failed with status: " +:+ pretty status
             +:+ ", message: " +:+ text).

(** What [makeApiRequest] makes of the answer of [fetch]: its outcome and
    the platform calls that follow the request. *)
Definition handle_answer (url : string) (answer : Outcome Num (Response Num))
  : Outcome Num (JsVal Num) * list (Event Num) :=
  match answer with
  | Threw error => api_failure url error
  | Returned response =>
      if response_ok response then
        match response_json response with
        | Returned v => (Returned v, [])
        | Threw error => api_failure url error
        end
      else
        match response_text response with
        | Returned text =>
            api_failure url (status_error (response_status response) text)
        | Threw error => api_failure url error
        end
  end.

(** The three ways a run of the primitive can go. *)
Inductive ApiRun (this : Dynamics365) (endpoint method : string)
    (body : JsVal Num) (additionalHeaders : option (gmap string string))
    (history : list (Event Num))
  : Outcome Num (JsVal Num) * list (Event Num) → Prop :=
| run_bad_base_url e :
    URL_origin w (d365Url this) = Threw e →
    ApiRun this endpoint method body additionalHeaders history (Threw e, [])
| run_refused origin cause :
    URL_origin w (d365Url this) = Returned origin →
    acquisition_failure
      (acquireTokenByClientCredential w history (msalInstance this)
         (token_request origin)) = Some cause →
    ApiRun this endpoint method body additionalHeaders history
      (Threw (new_Error (auth_prefix +:+ error_text cause)),
       [AcquireToken (msalInstance this) (token_request origin);
        ConsoleError "Token acquisition failed:" cause])
| run_granted origin token :
    grants this history origin token →
    let acquire := AcquireToken (msalInstance this) (token_request origin) in
    let url := request_url (d365Url this) endpoint in
    let init := request_init method token body additionalHeaders in
    let answer := fetch w (history ++ [acquire]) url init in
    ApiRun this endpoint method body additionalHeaders history
      ((handle_answer url answer).1,
       acquire :: Fetch url init :: (handle_answer url answer).2).

(** The decoded response carries a user identifier: it is an object with a
    truthy [UserId] property. *)
Definition carries_UserId (data : JsVal Num) : bool :=
  match data with
  | JObj props =>
      match lookup_prop "UserId" props with
      | Some id => truthy id
      | None => false
      end
  | _ => false
  end.

End Gateway.

(** The messages of the argument checks of the typed operations. *)
Definition validation_messages : list string :=
  [ "Account ID is required to fetch contacts.";
    "Account ID is required to fetch opportunities.";
    "Account data is required to create an account.";
    "Account ID is required to update an account.";
    "Account data is required to update an account." ].

(** The extra header of the user lookup. *)
Definition prefer_annotations : gmap string string :=
  {[ "Prefer" := "odata.include-annotations=" +:+ dquote +:+ "*" +:+ dquote ]}.

(** The URL is [stem/endpoint] for the base URL [stem], given with or
    without its trailing slash: one slash separates them, neither two nor
    none. *)
Definition one_separating_slash (base endpoint url : string) : Prop :=
  ∃ stem,
    (base = stem ∨ base = stem +:+ "/") ∧
    endsWith stem "/" = false ∧
    String.prefix "/" endpoint = false ∧
    url = stem +:+ "/" +:+ endpoint.

(** ** A sample deployment *)

Module Sample.

Definition base_url : string := "https://org.crm.dynamics.com".

Definition gateway : Dynamics365 :=
  new_Dynamics365 "client-id" "client-secret" "tenant-id" base_url.

Definition granted : Outcome SafeInteger (option AuthenticationResult) :=
  Returned (Some {| accessToken := "t0k3n" |}).

Definition refused : Outcome SafeInteger (option AuthenticationResult) :=
  Threw (ErrorObj "ClientAuthError" "invalid_client").

Definition not_found : Response SafeInteger :=
  {| response_ok := false;
     response_status := 404;
     response_text := Returned "not found";
     response_json := Threw (ErrorObj "SyntaxError" "Unexpected token o in JSON") |}.

Definition json_response (v : JsVal SafeInteger) : Response SafeInteger :=
  {| response_ok := true;
     response_status := 200;
     response_text := Returned "";
     response_json := Returned v |}.

Definition whoami : JsVal SafeInteger :=
  JObj [("UserId", JStr "u1"); ("BusinessUnitId", JStr "b1");
        ("OrganizationId", JStr "o1")].

Definition user_details : JsVal SafeInteger :=
  JObj [("domainname", JStr "jdoe"); ("fullname", JStr "Jane Doe")].

(** A platform for [gateway]: the exchange answers [auth], the resource API
    answers by URL. *)
Definition world (auth : Outcome SafeInteger (option AuthenticationResult))
    (api : string → Outcome SafeInteger (Response SafeInteger)) : World SafeInteger :=
  {| URL_origin s :=
       if String.eqb s base_url || String.eqb s (base_url +:+ "/")
       then Returned base_url
       else Threw (ErrorObj "TypeError" "Invalid URL");
     acquireTokenByClientCredential _ _ _ := auth;
     fetch _ url _ := api url |}.

(** The resource API of the sample: the identity endpoint and the user
    lookup answer, everything else is missing. *)
Definition api (url : string) : Outcome SafeInteger (Response SafeInteger) :=
  if String.eqb url (base_url +:+ "/api/data/v9.2/WhoAmI")
  then Returned (json_response whoami)
  else if String.eqb url (base_url +:+ "/api/data/v9.2/systemusers(u1)")
  then Returned (json_response user_details)
  else Returned not_found.

Definition offline (url : string) : Outcome SafeInteger (Response SafeInteger) :=
  Threw (ErrorObj "TypeError" "fetch failed").

End Sample.

(** ** The tool layer: [registerTools] of [src/build/tools.js] *)

(** The text of a tool result: a string built by the handler, or
    [JSON.stringify(v, null, 2)] for a value [v], kept as that value (for
    [undefined] the text is [undefined]). *)
Inductive ToolText {Num : Type} : Type :=
| Text (s : string)
| Json (v : JsVal Num).
Arguments ToolText : clear implicits.

(** A tool result [{ content: [{ type: "text", text }], isError }]; a
    result without [isError] has [isError = false]. *)
Record ToolResult {Num : Type} := {
  content_text : ToolText Num;
  isError : bool
}.
Arguments ToolResult : clear implicits.

(** The [console.error] calls among some platform calls. *)
Definition console_errors {Num : Type} (made : list (Event Num))
  : list (string * JsThrown Num) :=
  omap (λ ev, match ev with
              | ConsoleError label error => Some (label, error)
              | _ => None
              end)
       made.

Section Tools.
Context {Num : Type} `{!JsNumber Num} (w : World Num).

(** [error instanceof Error ? error.message : "Unknown error"] *)
Definition tool_error_text (error : JsThrown Num) : string :=
  match error with
  | ErrorObj _ message => message
  | NonError _ => "Unknown error"
  end.

(** The result of a [catch] block; [advice] is the end of its sentence. *)
Definition tool_failure (advice : string) (error : JsThrown Num)
  : ToolResult Num :=
  {| content_text := Text ("Error: " +:+ tool_error_text error +:+ advice);
     isError := true |}.

Definition check_credentials : string :=
  ", please check your credentials and try again.".

Definition check_input : string :=
  ", please check your input and try again.".

(** The text of the greeting of ["get-user-info"]: each member of the
    response is read and converted in turn, and the first failure, of a
    read or of a conversion, is the outcome. *)
Definition greeting (response : JsVal Num) : Outcome Num string :=
  match get_prop response "FullName" with
  | Threw e => Threw e
  | Returned FullName =>
  match to_string FullName with
  | Threw e => Threw e
  | Returned name =>
  match get_prop response "UserId" with
  | Threw e => Threw e
  | Returned UserId =>
  match to_string UserId with
  | Threw e => Threw e
  | Returned id =>
  match get_prop response "BusinessUnitId" with
  | Threw e => Threw e
  | Returned BusinessUnitId =>
  match to_string BusinessUnitId with
  | Threw e => Threw e
  | Returned unit =>
      Returned ("Hi " +:+ name +:+ ", your user ID is " +:+ id
                +:+ " and your business unit ID is " +:+ unit)
  end end end end end end.

(** The handler of ["get-user-info"]. *)
Definition tool_get_user_info (d365 : Dynamics365) : Js Num (ToolResult Num) :=
  try_catch
    (let* response := makeWhoAmIRequest w d365 in
     let* FullName := settle (get_prop response "FullName") in
     let* name := settle (to_string FullName) in
     let* UserId := settle (get_prop response "UserId") in
     let* id := settle (to_string UserId) in
     let* BusinessUnitId := settle (get_prop response "BusinessUnitId") in
     let* unit := settle (to_string BusinessUnitId) in
     ret {| content_text :=
              Text ("Hi " +:+ name
                    +:+ ", your user ID is " +:+ id
                    +:+ " and your business unit ID is " +:+ unit);
            isError := false |})
    (λ error, ret (tool_failure check_credentials error)).

(** The handler of ["fetch-accounts"]. *)
Definition tool_fetch_accounts (d365 : Dynamics365) : Js Num (ToolResult Num) :=
  try_catch
    (let* response := getAccounts w d365 in
     let* value := settle (get_prop response "value") in
     ret {| content_text := Json value; isError := false |})
    (λ error, ret (tool_failure check_credentials error)).

(** The handler of ["get-associated-opportunities"]; the schema makes
    [req.accountId] a string. *)
Definition tool_get_associated_opportunities (d365 : Dynamics365)
    (accountId : string) : Js Num (ToolResult Num) :=
  try_catch
    (let* response := getAssociatedOpportunities w d365 accountId in
     ret {| content_text := Json response; isError := false |})
    (λ error, ret (tool_failure check_input error)).

(** The handler of ["create-account"]. *)
Definition tool_create_account (d365 : Dynamics365) (accountData : JsVal Num)
  : Js Num (ToolResult Num) :=
  try_catch
    (let* response := createAccount w d365 accountData in
     ret {| content_text := Json response; isError := false |})
    (λ error, ret (tool_failure check_input error)).

(** The handler of ["update-account"]. *)
Definition tool_update_account (d365 : Dynamics365) (accountId : string)
    (accountData : JsVal Num) : Js Num (ToolResult Num) :=
  try_catch
    (let* response := updateAccount w d365 accountId accountData in
     ret {| content_text := Json response; isError := false |})
    (λ error, ret (tool_failure check_input error)).

End Tools.

(** ** Start-up: the top level of [index.ts] *)

(** How the process gets past its configuration check: it logs a message
    and exits with a code, or goes on with a gateway. *)
Inductive Startup :=
| Exited (code : Z) (logged : string)
| Started (d365 : Dynamics365).

(** [process.env] after [dotenv.config()], as a map; a variable that is not
    set reads as [undefined]. *)
Definition startup (env : gmap string string) : Startup :=
  let missing :=
    Exited 1
      "Missing required environment variables. Please check your .env file." in
  match env !! "CLIENT_ID", env !! "CLIENT_SECRET",
        env !! "TENANT_ID", env !! "D365_URL" with
  | Some clientId, Some clientSecret, Some tenantId, Some D365_BASE_URL =>
      if String.eqb clientId "" || String.eqb clientSecret ""
         || String.eqb tenantId "" || String.eqb D365_BASE_URL ""
      then missing
      else Started (new_Dynamics365 clientId clientSecret tenantId D365_BASE_URL)
  | _, _, _, _ => missing
  end.

(** ** More of the sample deployment *)

Module SampleHost.

(** The environment of the sample gateway. *)
Definition env : gmap string string :=
  <["D365_URL" := Sample.base_url]>
  (<["TENANT_ID" := "tenant-id"]>
  (<["CLIENT_SECRET" := "client-secret"]>
  (<["CLIENT_ID" := "client-id"]> ∅))).

(** A platform on which the base URL does not parse. *)
Definition no_url : World SafeInteger :=
  {| URL_origin _ := Threw (ErrorObj "TypeError" "Invalid URL");
     acquireTokenByClientCredential _ _ _ := Sample.granted;
     fetch _ url _ := Sample.api url |}.

(** A resource API that answers every request with the JSON value [v]. *)
Definition always (v : JsVal SafeInteger) (url : string) : Outcome SafeInteger (Response SafeInteger) :=
  Returned (Sample.json_response v).

(** A resource API whose user lookup answers [null]. *)
Definition null_lookup (url : string) : Outcome SafeInteger (Response SafeInteger) :=
  if String.eqb url (Sample.base_url +:+ "/api/data/v9.2/WhoAmI")
  then Returned (Sample.json_response Sample.whoami)
  else Returned (Sample.json_response JNull).

End SampleHost.

(** Unfolds a run down to the answers of the platform. *)
Ltac run_js :=
  unfold makeApiRequest, authenticate, bind, try_catch, settle, call,
    console_error, ret, throw.

(** * Properties *)

(** ** Strings *)

Lemma append_cons (x : ascii) (a b : string) :
  String x a +:+ b = String x (a +:+ b).
Proof. reflexivity. Qed.

Lemma append_assoc (a b c : string) : (a +:+ b) +:+ c = a +:+ b +:+ c.
Proof.
  induction a as [|x a IH]; [done|]. by rewrite !append_cons, IH.
Qed.


Lemma length_append (a b : string) :
  String.length (a +:+ b) = String.length a + String.length b.
Proof.
  induction a as [|x a IH]; [done|]. rewrite append_cons. simpl. by rewrite IH.
Qed.

Lemma append_inv_tail (a b c : string) : a +:+ c = b +:+ c → a = b.
Proof.
  revert b. induction a as [|x a IH]; intros [|y b] H.
  - done.
  - apply (f_equal String.length) in H.
    rewrite !length_append in H. simpl in H. lia.
  - apply (f_equal String.length) in H.
    rewrite !length_append in H. simpl in H. lia.
  - rewrite !append_cons in H. injection H as -> H. f_equal. by apply IH.
Qed.

Lemma endsWith_spec (s suffix : string) :
  endsWith s suffix = true ↔ ∃ front, s = front +:+ suffix.
Proof.
  split.
  - induction s as [|x s IH]; cbn [endsWith]; intros H.
    + rewrite orb_false_r in H. apply String.eqb_eq in H. by exists "".
    + apply orb_true_iff in H as [H|H].
      * apply String.eqb_eq in H. by exists "".
      * destruct (IH H) as [front ->]. by exists (String x front).
  - intros [front ->]. induction front as [|x front IH].
    + change ("" +:+ suffix) with suffix.
      destruct suffix; cbn [endsWith]; by rewrite String.eqb_refl.
    + rewrite append_cons. cbn [endsWith]. by rewrite IH, orb_true_r.
Qed.

Lemma starts_with_append (p rest : string) : starts_with p (p +:+ rest).
Proof. by exists rest. Qed.




(** No message carries both wrappers. *)
Lemma prefixes_apart (a b : string) : auth_prefix +:+ a ≠ api_prefix +:+ b.
Proof. unfold auth_prefix, api_prefix. rewrite !append_cons. discriminate. Qed.

(** ** The request URL *)

Lemma request_url_with_slash (stem endpoint : string) :
  request_url (stem +:+ "/") endpoint = stem +:+ "/" +:+ endpoint.
Proof.
  unfold request_url.
  assert (endsWith (stem +:+ "/") "/" = true) as ->
    by (apply endsWith_spec; by exists stem).
  apply append_assoc.
Qed.

Lemma request_url_without_slash (stem endpoint : string) :
  endsWith stem "/" = false →
  request_url stem endpoint = stem +:+ "/" +:+ endpoint.
Proof. unfold request_url. intros ->. apply append_assoc. Qed.

(** C6, as stated, fails: a base URL that ends in two slashes keeps both, so
    the URL has a doubled slash before the endpoint. *)
Lemma request_url_doubled_slash :
  request_url "https://org.crm.dynamics.com//" "api/data/v9.2/accounts"
    = "https://org.crm.dynamics.com//api/data/v9.2/accounts" ∧
  ¬ one_separating_slash
      "https://org.crm.dynamics.com//" "api/data/v9.2/accounts"
      (request_url "https://org.crm.dynamics.com//" "api/data/v9.2/accounts").
Proof.
  split; [reflexivity|].
  intros (stem & [Hbase | Hbase] & Hstem & _ & _).
  - subst stem. vm_compute in Hstem. discriminate.
  - change "https://org.crm.dynamics.com//"
      with ("https://org.crm.dynamics.com/" +:+ "/") in Hbase.
    apply append_inv_tail in Hbase. subst stem.
    vm_compute in Hstem. discriminate.
Qed.

(** C6, amended: for every base URL that does not end in two slashes and
    every endpoint that does not begin with a slash, the request URL is the
    base URL without its trailing slash, one slash, and the endpoint, whether
    or not the base URL ends in a slash. *)
Theorem request_url_one_separating_slash (base endpoint : string) :
  endsWith base "//" = false →
  String.prefix "/" endpoint = false →
  one_separating_slash base endpoint (request_url base endpoint).
Proof.
  intros Hbase Hendpoint.
  destruct (endsWith base "/") eqn:Hslash.
  - apply endsWith_spec in Hslash as [stem ->].
    exists stem. split_and!; [by right | | done | apply request_url_with_slash].
    destruct (endsWith stem "/") eqn:Hstem; [|done].
    apply endsWith_spec in Hstem as [front ->].
    rewrite <- Hbase. symmetry. apply endsWith_spec.
    exists front. by rewrite append_assoc.
  - exists base. split_and!; [by left | done | done |].
    by apply request_url_without_slash.
Qed.

Lemma request_url_one_separating_slash_witness :
  (endsWith "https://org.crm.dynamics.com/" "//" = false ∧
   String.prefix "/" "api/data/v9.2/accounts" = false) ∧
  one_separating_slash "https://org.crm.dynamics.com/" "api/data/v9.2/accounts"
    (request_url "https://org.crm.dynamics.com/" "api/data/v9.2/accounts").
Proof.
  split; [split; reflexivity|].
  apply (request_url_one_separating_slash
           "https://org.crm.dynamics.com/" "api/data/v9.2/accounts");
    reflexivity.
Defined.

(** ** Runs of [authenticate] and of the request primitive *)

Section Runs.
Context {Num : Type} `{!JsNumber Num} (w : World Num).
Implicit Types (this : Dynamics365) (history made : list (Event Num)).
Implicit Types (body data : JsVal Num) (e cause : JsThrown Num).
Implicit Types (additionalHeaders : option (gmap string string)).

Lemma bind_ret {A B} (a : A) (k : A → Js Num B) history :
  bind (ret a) k history = k a history.
Proof.
  unfold bind, ret. rewrite app_nil_r. by destruct (k a history).
Qed.

Lemma bind_settle_returned {A B} (a : A) (k : A → Js Num B) history :
  bind (settle (Returned a)) k history = k a history.
Proof.
  unfold bind, settle. rewrite app_nil_r. by destruct (k a history).
Qed.

Lemma bind_settle_threw {A B} e (k : A → Js Num B) history :
  bind (settle (Threw e)) k history = (Threw e, []).
Proof. reflexivity. Qed.

Lemma token_request_eq origin :
  {| scopes := [origin +:+ "/.default"] |} = token_request origin.
Proof. reflexivity. Qed.

Lemma authenticate_bad_base_url this history e :
  URL_origin w (d365Url this) = Threw e →
  authenticate w this history = (Threw e, []).
Proof. intros H. run_js. by rewrite H. Qed.

Lemma authenticate_granted this history origin token :
  grants w this history origin token →
  authenticate w this history
  = (Returned token, [AcquireToken (msalInstance this) (token_request origin)]).
Proof.
  intros (Horigin & Hanswer & Htoken). run_js.
  rewrite Horigin, token_request_eq, app_nil_r, Hanswer. simpl.
  apply String.eqb_neq in Htoken. by rewrite Htoken.
Qed.

Lemma authenticate_refused this history origin cause :
  URL_origin w (d365Url this) = Returned origin →
  acquisition_failure
    (acquireTokenByClientCredential w history (msalInstance this)
       (token_request origin)) = Some cause →
  authenticate w this history
  = (Threw (new_Error (auth_prefix +:+ error_text cause)),
     [AcquireToken (msalInstance this) (token_request origin);
      ConsoleError "Token acquisition failed:" cause]).
Proof.
  intros Horigin Hcause. run_js.
  rewrite Horigin, token_request_eq, app_nil_r.
  unfold acquisition_failure in Hcause.
  destruct (acquireTokenByClientCredential _ _ _ _) as [[result|]|e];
    simpl in *.
  - destruct (String.eqb (accessToken result) ""); simpl; by simplify_eq.
  - by simplify_eq.
  - by simplify_eq.
Qed.

(** The exchange either yields a usable token or hands a cause to the
    [catch] block. *)
Lemma granted_or_refused this history origin :
  URL_origin w (d365Url this) = Returned origin →
  (∃ token, grants w this history origin token) ∨
  (∃ cause,
     acquisition_failure
       (acquireTokenByClientCredential w history (msalInstance this)
          (token_request origin)) = Some cause).
Proof.
  intros Horigin. unfold grants, acquisition_failure.
  destruct (acquireTokenByClientCredential _ _ _ _) as [[[token]|]|e];
    simpl; eauto.
  destruct (String.eqb token "") eqn:Htoken; [eauto|].
  apply String.eqb_neq in Htoken. left. by exists token.
Qed.

Lemma granted_not_refused this history origin token :
  grants w this history origin token →
  acquisition_failure
    (acquireTokenByClientCredential w history (msalInstance this)
       (token_request origin)) = None.
Proof.
  intros (_ & -> & Htoken). simpl.
  apply String.eqb_neq in Htoken. by rewrite Htoken.
Qed.

Lemma makeApiRequest_bad_base_url this endpoint method body additionalHeaders
    history e :
  URL_origin w (d365Url this) = Threw e →
  makeApiRequest w this endpoint method body additionalHeaders history
  = (Threw e, []).
Proof.
  intros H. unfold makeApiRequest, bind.
  by rewrite (authenticate_bad_base_url _ _ _ H).
Qed.

Lemma makeApiRequest_refused this endpoint method body additionalHeaders
    history origin cause :
  URL_origin w (d365Url this) = Returned origin →
  acquisition_failure
    (acquireTokenByClientCredential w history (msalInstance this)
       (token_request origin)) = Some cause →
  makeApiRequest w this endpoint method body additionalHeaders history
  = (Threw (new_Error (auth_prefix +:+ error_text cause)),
     [AcquireToken (msalInstance this) (token_request origin);
      ConsoleError "Token acquisition failed:" cause]).
Proof.
  intros Horigin Hcause. unfold makeApiRequest, bind.
  by rewrite (authenticate_refused _ _ _ _ Horigin Hcause).
Qed.

(** With a token, the primitive sends one request and handles its answer. *)
Lemma makeApiRequest_granted this endpoint method body additionalHeaders
    history origin token :
  grants w this history origin token →
  let acquire := AcquireToken (msalInstance this) (token_request origin) in
  let url := request_url (d365Url this) endpoint in
  let init := request_init method token body additionalHeaders in
  let answer := fetch w (history ++ [acquire]) url init in
  makeApiRequest w this endpoint method body additionalHeaders history
  = ((handle_answer url answer).1,
     acquire :: Fetch url init :: (handle_answer url answer).2).
Proof.
  intros Hgrants acquire url init answer.
  unfold makeApiRequest, bind at 1.
  rewrite (authenticate_granted _ _ _ _ Hgrants).
  fold acquire url. change (request_init method token body additionalHeaders)
    with init.
  unfold init, request_init. run_js. unfold handle_answer, api_failure, status_error.
  subst answer init. unfold request_init.
  destruct (fetch w _ _ _) as [response|e]; simpl; [|done].
  destruct (response_ok response); simpl.
  - by destruct (response_json response).
  - by destruct (response_text response).
Qed.

End Runs.

(** ** Credentials, requests and failures of the request primitive *)

Section Primitive.
Context {Num : Type} `{!JsNumber Num} (w : World Num).
Implicit Types (this : Dynamics365) (history made : list (Event Num)).
Implicit Types (body data : JsVal Num) (e cause : JsThrown Num).
Implicit Types (additionalHeaders : option (gmap string string)).
Implicit Types (out : Outcome Num (JsVal Num)).

(** Handling the answer makes no further network call. *)
Lemma handle_answer_quiet url (answer : Outcome Num (Response Num)) :
  fetches (handle_answer url answer).2 = [] ∧
  acquisitions (handle_answer url answer).2 = [].
Proof.
  unfold handle_answer, api_failure.
  destruct answer as [response|e]; [|done].
  destruct (response_ok response);
    [by destruct (response_json response)|by destruct (response_text response)].
Qed.

Lemma fetches_granted config request url (init : RequestInit Num) rest :
  fetches rest = [] →
  fetches (AcquireToken config request :: Fetch url init :: rest)
  = [(url, init)].
Proof. intros H. change (fetches ?l) with ((url, init) :: fetches rest). by rewrite H. Qed.

Lemma acquisitions_granted config request url (init : RequestInit Num) rest :
  acquisitions rest = [] →
  acquisitions (AcquireToken config request :: Fetch url init :: rest)
  = [(config, request)].
Proof.
  intros H.
  change (acquisitions ?l) with ((config, request) :: acquisitions rest).
  by rewrite H.
Qed.

(** A failure of the answer handling is a wrapped one. *)
Lemma handle_answer_threw url (answer : Outcome Num (Response Num)) e :
  (handle_answer url answer).1 = Threw e →
  ∃ detail, e = new_Error (api_prefix +:+ detail).
Proof.
  unfold handle_answer, api_failure.
  destruct answer as [response|error]; simpl.
  - destruct (response_ok response).
    + destruct (response_json response); simpl; intros; simplify_eq; eauto.
    + destruct (response_text response); simpl; intros; simplify_eq; eauto.
  - intros; simplify_eq; eauto.
Qed.

Lemma makeApiRequest_run this endpoint method body additionalHeaders history :
  ApiRun w this endpoint method body additionalHeaders history
    (makeApiRequest w this endpoint method body additionalHeaders history).
Proof.
  destruct (URL_origin w (d365Url this)) as [origin|e] eqn:Horigin.
  - destruct (granted_or_refused w this history origin Horigin)
      as [[token Hgrants]|[cause Hcause]].
    + rewrite (makeApiRequest_granted w _ _ _ _ _ _ _ _ Hgrants).
      by apply run_granted.
    + rewrite (makeApiRequest_refused w _ _ _ _ _ _ _ _ Horigin Hcause).
      by apply run_refused.
  - rewrite (makeApiRequest_bad_base_url w _ _ _ _ _ _ _ Horigin).
    by apply run_bad_base_url.
Qed.

End Primitive.

Section PrimitiveClaims.
Context {Num : Type} `{!JsNumber Num} (w : World Num).
Implicit Types (this : Dynamics365) (history made : list (Event Num)).
Implicit Types (body data : JsVal Num) (e cause : JsThrown Num).
Implicit Types (additionalHeaders : option (gmap string string)).
Implicit Types (out : Outcome Num (JsVal Num)).

Lemma validation_messages_unwrapped :
  Forall (λ msg, ¬ starts_with auth_prefix msg ∧ ¬ starts_with api_prefix msg)
         validation_messages.
Proof.
  unfold validation_messages, auth_prefix, api_prefix.
  repeat (constructor; [split; intros [rest H]; discriminate H|]).
  constructor.
Qed.

(** C1, amended: every error the request primitive throws (once the base
    URL parses) is an instance of the one class [Error]; what tells a failure
    of the token acquisition from a failure of the HTTP status or of the
    transport or decoding is the wrapper its message starts with, and no
    message starts with both; the messages of the argument checks start with
    neither. *)
Theorem failures_told_apart_by_message this endpoint method body
    additionalHeaders history origin e made :
  URL_origin w (d365Url this) = Returned origin →
  makeApiRequest w this endpoint method body additionalHeaders history
    = (Threw e, made) →
  error_class e = Some "Error" ∧
  match acquisition_failure
          (acquireTokenByClientCredential w history (msalInstance this)
             (token_request origin)) with
  | Some cause =>
      error_text e = auth_prefix +:+ error_text cause ∧ fetches made = []
  | None =>
      (∃ detail, error_text e = api_prefix +:+ detail) ∧ fetches made ≠ []
  end ∧
  (starts_with auth_prefix (error_text e) →
   ¬ starts_with api_prefix (error_text e)) ∧
  Forall (λ msg, ¬ starts_with auth_prefix msg ∧ ¬ starts_with api_prefix msg)
         validation_messages.
Proof.
  intros Horigin Hrun.
  pose proof (makeApiRequest_run w this endpoint method body
                additionalHeaders history) as Hcases.
  rewrite Hrun in Hcases.
  assert (∀ s, starts_with auth_prefix s → ¬ starts_with api_prefix s) as Hapart.
  { intros s [a ->] [b Hb]. by apply prefixes_apart in Hb. }
  inversion Hcases as [e' Hbad|origin' cause Horigin' Hcause
                      |origin' token Hgrants]; subst.
  - congruence.
  - assert (origin' = origin) as -> by congruence.
    rewrite Hcause. split_and!; auto using validation_messages_unwrapped.
  - assert (origin' = origin) as ->
      by (destruct Hgrants as [? _]; congruence).
    rewrite (granted_not_refused w _ _ _ _ Hgrants).
    match goal with H : (handle_answer _ _).1 = Threw _ |- _ =>
      apply handle_answer_threw in H as [detail ->] end.
    split_and!; eauto using validation_messages_unwrapped.
Qed.

(** C3, amended: every HTTP request of the primitive comes right after a
    credential exchange made in the same invocation and carries the token
    that this exchange returned; every invocation whose base URL parses
    makes exactly one exchange; and when, the base URL parsed, the exchange
    rejects or yields no usable token, the primitive throws the
    authentication error with the cause's message and makes no HTTP
    request. *)
Theorem fresh_credential_before_request this endpoint method body
    additionalHeaders history out made :
  makeApiRequest w this endpoint method body additionalHeaders history
    = (out, made) →
  (∀ url init, (url, init) ∈ fetches made →
     ∃ origin token rest,
       grants w this history origin token ∧
       made = AcquireToken (msalInstance this) (token_request origin)
              :: Fetch url init :: rest ∧
       init = request_init method token body additionalHeaders ∧
       fetches rest = [] ∧ acquisitions rest = []) ∧
  (∀ origin, URL_origin w (d365Url this) = Returned origin →
     acquisitions made = [(msalInstance this, token_request origin)]) ∧
  (∀ origin cause,
     URL_origin w (d365Url this) = Returned origin →
     acquisition_failure
       (acquireTokenByClientCredential w history (msalInstance this)
          (token_request origin)) = Some cause →
     out = Threw (new_Error
             ("Failed to authenticate with Dynamics 365: "
              +:+ error_text cause)) ∧
     fetches made = []).
Proof.
  intros Hrun.
  pose proof (makeApiRequest_run w this endpoint method body
                additionalHeaders history) as Hcases.
  rewrite Hrun in Hcases.
  inversion Hcases as [e' Hbad|origin' cause' Horigin' Hcause'
                      |origin' token Hgrants]; subst.
  - split_and!.
    + intros url init Hin. by apply elem_of_nil in Hin.
    + intros origin Horigin. congruence.
    + intros origin cause Horigin. congruence.
  - split_and!.
    + intros url init Hin. by apply elem_of_nil in Hin.
    + intros origin Horigin. by assert (origin' = origin) as -> by congruence.
    + intros origin cause Horigin Hcause.
      assert (origin' = origin) as -> by congruence.
      by assert (cause' = cause) as -> by congruence.
  - subst acquire url init answer.
    destruct (handle_answer_quiet
                (request_url (d365Url this) endpoint)
                (fetch w
                   (history ++
                    [AcquireToken (msalInstance this) (token_request origin')])
                   (request_url (d365Url this) endpoint)
                   (request_init method token body additionalHeaders)))
      as [Hfetches Hacquisitions].
    split_and!.
    + intros u i Hin. rewrite (fetches_granted _ _ _ _ _ Hfetches) in Hin.
      apply list_elem_of_singleton in Hin. simplify_eq.
      exists origin', token. eexists.
      split_and!; [done|reflexivity|reflexivity|done|done].
    + intros origin Horigin.
      assert (origin' = origin) as ->
        by (destruct Hgrants as [? _]; congruence).
      by apply acquisitions_granted.
    + intros origin cause Horigin Hcause.
      assert (origin' = origin) as ->
        by (destruct Hgrants as [? _]; congruence).
      rewrite (granted_not_refused w _ _ _ _ Hgrants) in Hcause. done.
Qed.


(** C7: every request of the primitive carries the bearer token of this
    invocation and the four fixed headers, except that a header the caller
    supplies is sent with the caller's value, whether or not it has the name
    of a standard one. *)
Theorem request_headers_sent this endpoint method body additionalHeaders
    history out made url init :
  makeApiRequest w this endpoint method body additionalHeaders history
    = (out, made) →
  (url, init) ∈ fetches made →
  ∃ origin token,
    grants w this history origin token ∧
    (∀ name,
       init_headers init !! name
       = match default ∅ additionalHeaders !! name with
         | Some value => Some value
         | None => standard_headers token !! name
         end) ∧
    standard_headers token !! "Authorization" = Some ("Bearer " +:+ token) ∧
    standard_headers token !! "Accept" = Some "application/json" ∧
    standard_headers token !! "Content-Type" = Some "application/json" ∧
    standard_headers token !! "OData-MaxVersion" = Some "4.0" ∧
    standard_headers token !! "OData-Version" = Some "4.0".
Proof.
  intros Hrun Hin.
  pose proof (makeApiRequest_run w this endpoint method body
                additionalHeaders history) as Hcases.
  rewrite Hrun in Hcases.
  inversion Hcases as [e' Hbad|origin' cause' Horigin' Hcause'
                      |origin' token Hgrants]; subst;
    try by apply elem_of_nil in Hin.
  subst acquire url0 init0 answer.
  rewrite (fetches_granted _ _ _ _ _ (proj1 (handle_answer_quiet _ _))) in Hin.
  apply list_elem_of_singleton in Hin. simplify_eq.
  exists origin', token. split; [done|]. split.
  - intros name. simpl. unfold request_headers.
    rewrite lookup_union.
    destruct (default ∅ additionalHeaders !! name) as [value|];
      destruct (standard_headers token !! name); done.
  - unfold standard_headers. split_and!; by simplify_map_eq.
Qed.

End PrimitiveClaims.

(** ** The typed operations *)

Section TypedOperations.
Context {Num : Type} `{!JsNumber Num} (w : World Num).
Implicit Types (this : Dynamics365) (history made : list (Event Num)).
Implicit Types (accountData data : JsVal Num) (accountId : string).

Lemma makeApiRequest_single_request this endpoint method body
    additionalHeaders history origin token :
  grants w this history origin token →
  fetches
    (makeApiRequest w this endpoint method body additionalHeaders history).2
  = [(request_url (d365Url this) endpoint,
      request_init method token body additionalHeaders)].
Proof.
  intros Hgrants.
  rewrite (makeApiRequest_granted w _ _ _ _ _ _ _ _ Hgrants).
  apply fetches_granted, handle_answer_quiet.
Qed.

Lemma makeApiRequest_decoded this endpoint method body additionalHeaders
    history origin token response v :
  grants w this history origin token →
  fetch w
    (history ++ [AcquireToken (msalInstance this) (token_request origin)])
    (request_url (d365Url this) endpoint)
    (request_init method token body additionalHeaders) = Returned response →
  response_ok response = true →
  response_json response = Returned v →
  (makeApiRequest w this endpoint method body additionalHeaders history).1
  = Returned v.
Proof.
  intros Hgrants Hanswer Hok Hjson.
  rewrite (makeApiRequest_granted w _ _ _ _ _ _ _ _ Hgrants).
  cbn [fst]. unfold handle_answer. by rewrite Hanswer, Hok, Hjson.
Qed.

(** A GET of a typed operation: no body, no extra header. *)
Lemma request_init_get token :
  request_init "GET" token (JUndefined : JsVal Num) None
  = {| init_method := "GET";
       init_headers := standard_headers token;
       init_body := None |}.
Proof.
  unfold request_init, request_headers. simpl. by rewrite (left_id_L ∅ (∪)).
Qed.

(** C2, amended: with an empty account id, [getAssociatedOpportunities]
    throws an error whose message is "Account ID is required to fetch
    opportunities.", and with missing (falsy, such as [undefined]) account
    data [createAccount] throws an error with its own message; both make no
    platform call at all, so no credential exchange and no HTTP request. *)
Theorem validation_before_network this history :
  (∀ accountId,
     accountId = "" →
     getAssociatedOpportunities w this accountId history
     = (Threw (new_Error "Account ID is required to fetch opportunities."),
        [])) ∧
  (∀ accountData,
     truthy accountData = false →
     createAccount w this accountData history
     = (Threw (new_Error "Account data is required to create an account."),
        [])) ∧
  truthy (JUndefined : JsVal Num) = false.
Proof.
  split_and!.
  - by intros accountId ->.
  - intros accountData Hmissing. unfold createAccount. by rewrite Hmissing.
  - done.
Qed.

(** C8: [updateAccount] checks the account id first and the account data
    second, each with a message of its own, and throws before any platform
    call. *)
Theorem updateAccount_checks_in_order this history :
  (∀ accountId accountData,
     accountId = "" →
     updateAccount w this accountId accountData history
     = (Threw (new_Error "Account ID is required to update an account."),
        [])) ∧
  (∀ accountId accountData,
     accountId ≠ "" →
     truthy accountData = false →
     updateAccount w this accountId accountData history
     = (Threw (new_Error "Account data is required to update an account."),
        [])) ∧
  "Account ID is required to update an account."
    ≠ "Account data is required to update an account.".
Proof.
  split_and!.
  - by intros accountId accountData ->.
  - intros accountId accountData Hid Hmissing. unfold updateAccount.
    apply String.eqb_neq in Hid. by rewrite Hid, Hmissing.
  - discriminate.
Qed.

(** C9: for a non-empty account id, [getAssociatedOpportunities] is one call
    of the request primitive, a GET without a body to the opportunities
    endpoint with the account id appended as it is; with a token that is one
    HTTP request, and the decoded body of a successful response is the
    result. *)
Theorem getAssociatedOpportunities_request this accountId history :
  accountId ≠ "" →
  let endpoint :=
    "api/data/v9.2/opportunities?$filter=_customerid_value eq " +:+ accountId in
  getAssociatedOpportunities w this accountId history
  = makeApiRequest w this endpoint "GET" JUndefined None history ∧
  ∀ origin token,
    grants w this history origin token →
    let url := request_url (d365Url this) endpoint in
    let init :=
      {| init_method := "GET";
         init_headers := standard_headers token;
         init_body := None |} in
    fetches (getAssociatedOpportunities w this accountId history).2
    = [(url, init)] ∧
    ∀ response v,
      fetch w
        (history ++ [AcquireToken (msalInstance this) (token_request origin)])
        url init = Returned response →
      response_ok response = true →
      response_json response = Returned v →
      (getAssociatedOpportunities w this accountId history).1 = Returned v.
Proof.
  intros Hid endpoint. unfold getAssociatedOpportunities.
  apply String.eqb_neq in Hid. rewrite Hid. fold endpoint.
  split; [done|]. intros origin token Hgrants. cbv zeta.
  rewrite <- (request_init_get token).
  split.
  - by rewrite (makeApiRequest_single_request _ _ _ _ _ _ _ _ Hgrants).
  - intros response v Hanswer Hok Hjson.
    by apply (makeApiRequest_decoded _ _ _ _ _ _ _ _ _ _ Hgrants Hanswer).
Qed.

(** C10: [getAssociatedContacts] is a sixth typed operation: with an empty
    account id it throws "Account ID is required to fetch contacts." before
    any platform call; otherwise it is one call of the request primitive, a
    GET without a body to the contacts endpoint with the account id appended
    as it is, and the decoded body of a successful response is the result. *)
Theorem getAssociatedContacts_request this accountId history :
  (accountId = "" →
   getAssociatedContacts w this accountId history
   = (Threw (new_Error "Account ID is required to fetch contacts."), [])) ∧
  (accountId ≠ "" →
   let endpoint :=
     "api/data/v9.2/contacts?$filter=_parentcustomerid_value eq "
     +:+ accountId in
   getAssociatedContacts w this accountId history
   = makeApiRequest w this endpoint "GET" JUndefined None history ∧
   ∀ origin token,
     grants w this history origin token →
     let url := request_url (d365Url this) endpoint in
     let init :=
       {| init_method := "GET";
          init_headers := standard_headers token;
          init_body := None |} in
     fetches (getAssociatedContacts w this accountId history).2
     = [(url, init)] ∧
     ∀ response v,
       fetch w
         (history ++ [AcquireToken (msalInstance this) (token_request origin)])
         url init = Returned response →
       response_ok response = true →
       response_json response = Returned v →
       (getAssociatedContacts w this accountId history).1 = Returned v).
Proof.
  split; [by intros ->|].
  intros Hid endpoint. unfold getAssociatedContacts.
  apply String.eqb_neq in Hid. rewrite Hid. fold endpoint.
  split; [done|]. intros origin token Hgrants. cbv zeta.
  rewrite <- (request_init_get token).
  split.
  - by rewrite (makeApiRequest_single_request _ _ _ _ _ _ _ _ Hgrants).
  - intros response v Hanswer Hok Hjson.
    by apply (makeApiRequest_decoded _ _ _ _ _ _ _ _ _ _ Hgrants Hanswer).
Qed.

(** ** The current user *)

Lemma lookup_assign_prop_eq key (v : JsVal Num) props :
  lookup_prop key (assign_prop key v props) = Some v.
Proof.
  induction props as [|[k old] props IH]; simpl.
  - by rewrite String.eqb_refl.
  - destruct (String.eqb k key) eqn:Hk; simpl; by rewrite Hk.
Qed.

Lemma lookup_assign_prop_ne key key' (v : JsVal Num) props :
  key ≠ key' →
  lookup_prop key' (assign_prop key v props) = lookup_prop key' props.
Proof.
  intros Hne. induction props as [|[k old] props IH]; simpl.
  - apply String.eqb_neq in Hne. by rewrite Hne.
  - destruct (String.eqb k key) eqn:Hk; simpl.
    + apply String.eqb_eq in Hk as ->.
      apply String.eqb_neq in Hne. by rewrite Hne.
    + by rewrite IH.
Qed.

(** The test [data && data.UserId] is the test for a user identifier, and
    reading [data.UserId] again gives the identifier. *)
Lemma UserId_condition data :
  (if carries_UserId data
   then ∃ props id,
          data = JObj props ∧ lookup_prop "UserId" props = Some id ∧
          truthy data = true ∧ get_prop data "UserId" = Returned id ∧
          truthy id = true
   else ∃ condition,
          (if truthy data then get_prop data "UserId" else Returned data)
          = Returned condition ∧ truthy condition = false).
Proof.
  destruct data as [| |b|n|s|items|props]; simpl; eauto.
  - destruct b; eexists; (split; [reflexivity|done]).
  - destruct (num_truthy n) eqn:Hn; eexists; (split; [reflexivity|done]).
  - destruct (String.eqb s "") eqn:Hs; simpl; eexists;
      (split; [reflexivity|simpl; by rewrite ?Hs]).
  - destruct (lookup_prop "UserId" props) as [id|] eqn:Hid; simpl; eauto.
    destruct (truthy id) eqn:Htruthy; eauto 10.
Qed.

(** An object takes the two assignments. *)
Lemma set_prop_of_truthy_UserId data :
  carries_UserId data = true →
  ∀ key x, ∃ props, data = JObj props ∧
    set_prop data key x = Returned (JObj (assign_prop key x props)).
Proof. destruct data; simpl; try done. eauto. Qed.

(** C5, amended: the operation first runs the request primitive as a GET of
    [api/data/v9.2/WhoAmI]; a failure of that call propagates.  If the
    decoded response carries no user identifier it is returned as it is and
    nothing else is called.  If it carries one that cannot be converted to a
    string, the conversion's error is thrown and nothing else is called.  If
    it carries one that converts, the primitive is run a second time, as a
    GET of [api/data/v9.2/systemusers(<UserId>)] with the extra header
    [Prefer: odata.include-annotations="*"]; a failure of this second call
    propagates, and when the lookup decodes to a value other than [null] the
    result is the first response with [UserName] set to the lookup's
    [domainname] and [FullName] to its [fullname], every other property
    unchanged. *)
Theorem makeWhoAmIRequest_flow this history :
  let first :=
    makeApiRequest w this "api/data/v9.2/WhoAmI" "GET" JUndefined None history in
  (∀ e, first.1 = Threw e →
        makeWhoAmIRequest w this history = (Threw e, first.2)) ∧
  (∀ data,
     first.1 = Returned data →
     carries_UserId data = false →
     makeWhoAmIRequest w this history = (Returned data, first.2)) ∧
  (∀ data,
     first.1 = Returned data →
     carries_UserId data = true →
     ∃ props UserId,
       data = JObj props ∧ lookup_prop "UserId" props = Some UserId ∧
       (∀ e, to_string UserId = Threw e →
             makeWhoAmIRequest w this history = (Threw e, first.2)) ∧
       (∀ id,
          to_string UserId = Returned id →
          let second :=
            makeApiRequest w this
              ("api/data/v9.2/systemusers(" +:+ id +:+ ")")
              "GET" JUndefined (Some prefer_annotations)
              (history ++ first.2) in
          (∀ token,
             request_headers token (Some prefer_annotations) !! "Prefer"
             = Some ("odata.include-annotations=" +:+ dquote +:+ "*"
                     +:+ dquote)) ∧
          (∀ e, second.1 = Threw e →
                makeWhoAmIRequest w this history
                = (Threw e, first.2 ++ second.2)) ∧
          (∀ details,
             second.1 = Returned details →
             details ≠ JNull → details ≠ JUndefined →
             ∃ domainname fullname,
               get_prop details "domainname" = Returned domainname ∧
               get_prop details "fullname" = Returned fullname ∧
               let result :=
                 assign_prop "FullName" fullname
                   (assign_prop "UserName" domainname props) in
               makeWhoAmIRequest w this history
               = (Returned (JObj result), first.2 ++ second.2) ∧
               lookup_prop "UserName" result = Some domainname ∧
               lookup_prop "FullName" result = Some fullname ∧
               ∀ key, key ≠ "UserName" → key ≠ "FullName" →
                      lookup_prop key result = lookup_prop key props))).
Proof.
  intros first. subst first. unfold makeWhoAmIRequest.
  match goal with |- context [bind _ ?k] => set (rest := k) end.
  unfold bind.
  destruct (makeApiRequest w this "api/data/v9.2/WhoAmI" "GET" JUndefined None
              history) as [[data|e] made1]; cbn [fst snd].
  2: { split_and!; [by intros ? [= ->]|done|done]. }
  split_and!; [done| |]; intros data' [= <-] Hcarries;
    pose proof (UserId_condition data) as Hcondition;
    rewrite Hcarries in Hcondition; subst rest; cbv beta.
  - destruct Hcondition as (condition & Hcondition & Hfalsy).
    assert ((if truthy data then settle (get_prop data "UserId") else ret data)
            = settle (Returned condition)) as ->.
    { unfold ret. destruct (truthy data); by rewrite <- Hcondition. }
    rewrite bind_settle_returned, Hfalsy. unfold ret. by rewrite app_nil_r.
  - destruct Hcondition
      as (props & UserId & -> & Hid & Htruthy & Hget & Hidtruthy).
    exists props, UserId. split; [done|]. split; [done|].
    rewrite Htruthy, Hget, bind_settle_returned, Hidtruthy,
      bind_settle_returned.
    split.
    + intros e ->. rewrite bind_settle_threw. by rewrite app_nil_r.
    + intros id ->. cbv zeta. rewrite bind_settle_returned.
      change (Some {[ "Prefer" := _ ]}) with (Some prefer_annotations).
      match goal with
      | |- context [bind (makeApiRequest _ _ _ _ _ _) ?k] => set (rest := k)
      end.
      unfold bind.
      destruct (makeApiRequest w this
                  ("api/data/v9.2/systemusers(" +:+ id +:+ ")")
                  "GET" JUndefined (Some prefer_annotations)
                  (history ++ made1)) as [[details|e] made2]; cbn [fst snd].
      2: { split_and!; [|by intros ? [= ->]|done].
           intros token. unfold request_headers, prefer_annotations. simpl.
           by rewrite lookup_union, lookup_singleton_eq. }
      split_and!; [|done|].
      * intros token. unfold request_headers, prefer_annotations. simpl.
        by rewrite lookup_union, lookup_singleton_eq.
      * intros details' [= <-] Hnull Hundefined.
        assert (∀ key, ∃ x, get_prop details key = Returned x) as Hprop.
        { intros key. destruct details; simpl; eauto; done. }
        destruct (Hprop "domainname") as [domainname Hdomainname].
        destruct (Hprop "fullname") as [fullname Hfullname].
        exists domainname, fullname. split; [done|]. split; [done|].
        split_and!.
        -- subst rest. cbv beta.
           rewrite Hdomainname, bind_settle_returned. simpl set_prop.
           rewrite bind_settle_returned, Hfullname, bind_settle_returned.
           simpl set_prop. rewrite bind_settle_returned. unfold ret.
           by rewrite app_nil_r.
        -- rewrite lookup_assign_prop_ne by done. apply lookup_assign_prop_eq.
        -- apply lookup_assign_prop_eq.
        -- intros key Huser Hfull.
           rewrite !lookup_assign_prop_ne by done. done.
Qed.

End TypedOperations.

(** * The sample deployment, run *)

Lemma sample_grants history :
  grants (Sample.world Sample.granted Sample.api) Sample.gateway history
    Sample.base_url "t0k3n".
Proof. split_and!; [reflexivity|reflexivity|discriminate]. Qed.

(** C1, as stated, fails: a refused credential exchange, a 404 response and
    a transport fault all surface as instances of the same class [Error];
    only the text of the message differs. *)
Lemma failure_kinds_share_class :
  ∃ e_auth e_status e_transport,
    (makeApiRequest (Sample.world Sample.refused Sample.api) Sample.gateway
       "api/data/v9.2/accounts" "GET" JUndefined None []).1 = Threw e_auth ∧
    (makeApiRequest (Sample.world Sample.granted Sample.api) Sample.gateway
       "api/data/v9.2/accounts" "GET" JUndefined None []).1 = Threw e_status ∧
    (makeApiRequest (Sample.world Sample.granted Sample.offline) Sample.gateway
       "api/data/v9.2/accounts" "GET" JUndefined None []).1
    = Threw e_transport ∧
    error_class e_auth = error_class e_status ∧
    error_class e_auth = error_class e_transport ∧
    e_auth ≠ e_status ∧ e_auth ≠ e_transport.
Proof.
  eexists _, _, _. split_and!; [reflexivity|reflexivity|reflexivity| | | |].
  - reflexivity.
  - reflexivity.
  - vm_compute. discriminate.
  - vm_compute. discriminate.
Qed.

Lemma failures_told_apart_by_message_witness :
  ∃ e made,
    makeApiRequest (Sample.world Sample.refused Sample.api) Sample.gateway
      "api/data/v9.2/accounts" "GET" JUndefined None [] = (Threw e, made) ∧
    error_class e = Some "Error" ∧
    error_text e = "Failed to authenticate with Dynamics 365: invalid_client" ∧
    fetches made = [].
Proof.
  eexists _, _. split; [reflexivity|].
  destruct (failures_told_apart_by_message
              (Sample.world Sample.refused Sample.api) Sample.gateway
              "api/data/v9.2/accounts" "GET" JUndefined None []
              Sample.base_url _ _ eq_refl eq_refl)
    as (Hclass & Hmessage & _).
  split; [exact Hclass|exact Hmessage].
Defined.

Lemma fresh_credential_before_request_witness :
  (∃ rest,
     (makeApiRequest (Sample.world Sample.granted Sample.api) Sample.gateway
        "api/data/v9.2/accounts" "GET" JUndefined None []).2
     = AcquireToken (msalInstance Sample.gateway)
         (token_request Sample.base_url)
       :: Fetch "https://org.crm.dynamics.com/api/data/v9.2/accounts"
            (request_init "GET" "t0k3n" JUndefined None)
       :: rest) ∧
  (makeApiRequest (Sample.world Sample.refused Sample.api) Sample.gateway
     "api/data/v9.2/accounts" "GET" JUndefined None []).1
  = Threw (new_Error
             "Failed to authenticate with Dynamics 365: invalid_client").
Proof.
  split.
  - destruct (fresh_credential_before_request
                (Sample.world Sample.granted Sample.api) Sample.gateway
                "api/data/v9.2/accounts" "GET" JUndefined None [] _ _ eq_refl)
      as (Horder & _ & _).
    destruct (Horder "https://org.crm.dynamics.com/api/data/v9.2/accounts"
                (request_init "GET" "t0k3n" JUndefined None))
      as (origin & token & rest & Hgrants & Hmade & _).
    { apply list_elem_of_here. }
    exists rest. destruct Hgrants as ([= <-] & [= <-] & _). exact Hmade.
  - destruct (fresh_credential_before_request
                (Sample.world Sample.refused Sample.api) Sample.gateway
                "api/data/v9.2/accounts" "GET" JUndefined None [] _ _ eq_refl)
      as (_ & _ & Hrefused).
    destruct (Hrefused Sample.base_url
                (ErrorObj "ClientAuthError" "invalid_client")
                eq_refl eq_refl) as [Hout _].
    exact Hout.
Defined.


Lemma request_headers_sent_witness :
  ∃ init,
    fetches
      (makeApiRequest (Sample.world Sample.granted Sample.api) Sample.gateway
         "api/data/v9.2/systemusers(u1)" "GET" JUndefined
         (Some prefer_annotations) []).2
    = [("https://org.crm.dynamics.com/api/data/v9.2/systemusers(u1)", init)] ∧
    init_headers init !! "Authorization" = Some "Bearer t0k3n" ∧
    init_headers init !! "Prefer"
    = Some ("odata.include-annotations=" +:+ dquote +:+ "*" +:+ dquote).
Proof.
  eexists. split; [reflexivity|].
  destruct (request_headers_sent
              (Sample.world Sample.granted Sample.api) Sample.gateway
              "api/data/v9.2/systemusers(u1)" "GET" JUndefined
              (Some prefer_annotations) [] _ _
              "https://org.crm.dynamics.com/api/data/v9.2/systemusers(u1)"
              (request_init "GET" "t0k3n" JUndefined (Some prefer_annotations))
              eq_refl (list_elem_of_here _ _))
    as (origin & token & Hgrants & Hsent & Hauthorization & _).
  destruct Hgrants as (_ & [= <-] & _).
  split.
  - rewrite Hsent. exact Hauthorization.
  - rewrite Hsent. reflexivity.
Defined.

(** C2, as stated, fails in one detail: the message of the error thrown for
    an empty account id is not "Account ID is required" but a longer
    sentence that starts with it. *)
Lemma getAssociatedOpportunities_message :
  ∃ e,
    getAssociatedOpportunities (Sample.world Sample.granted Sample.api)
      Sample.gateway "" [] = (Threw e, []) ∧
    error_text e = "Account ID is required to fetch opportunities." ∧
    error_text e ≠ "Account ID is required".
Proof. eexists. split_and!; [reflexivity|reflexivity|discriminate]. Qed.

Lemma validation_before_network_witness :
  getAssociatedOpportunities (Sample.world Sample.granted Sample.api)
    Sample.gateway "" []
  = (Threw (new_Error "Account ID is required to fetch opportunities."), []) ∧
  createAccount (Sample.world Sample.granted Sample.api)
    Sample.gateway JUndefined []
  = (Threw (new_Error "Account data is required to create an account."), []).
Proof.
  destruct (validation_before_network
              (Sample.world Sample.granted Sample.api) Sample.gateway [])
    as (Hid & Hdata & Hundefined).
  split; [exact (Hid "" eq_refl)|exact (Hdata JUndefined Hundefined)].
Defined.

Lemma updateAccount_checks_in_order_witness :
  updateAccount (Sample.world Sample.granted Sample.api) Sample.gateway
    "" JUndefined []
  = (Threw (new_Error "Account ID is required to update an account."), []) ∧
  updateAccount (Sample.world Sample.granted Sample.api) Sample.gateway
    "acc1" JNull []
  = (Threw (new_Error "Account data is required to update an account."), []).
Proof.
  destruct (updateAccount_checks_in_order
              (Sample.world Sample.granted Sample.api) Sample.gateway [])
    as (Hid & Hdata & _).
  split; [exact (Hid "" JUndefined eq_refl)|].
  apply (Hdata "acc1" JNull); [discriminate|reflexivity].
Defined.

Lemma getAssociatedOpportunities_request_witness :
  fetches
    (getAssociatedOpportunities (Sample.world Sample.granted Sample.api)
       Sample.gateway "acc1' or '1' eq '1" []).2
  = [("https://org.crm.dynamics.com/api/data/v9.2/opportunities?$filter=_customerid_value eq acc1' or '1' eq '1",
      {| init_method := "GET";
         init_headers := standard_headers "t0k3n";
         init_body := None |})].
Proof.
  assert ("acc1' or '1' eq '1" ≠ "") as Hid by discriminate.
  destruct (getAssociatedOpportunities_request
              (Sample.world Sample.granted Sample.api) Sample.gateway
              "acc1' or '1' eq '1" [] Hid) as [_ Hrequest].
  destruct (Hrequest Sample.base_url "t0k3n" (sample_grants []))
    as [Hfetches _].
  exact Hfetches.
Defined.

Lemma getAssociatedContacts_request_witness :
  getAssociatedContacts (Sample.world Sample.granted Sample.api)
    Sample.gateway "" []
  = (Threw (new_Error "Account ID is required to fetch contacts."), []) ∧
  fetches
    (getAssociatedContacts (Sample.world Sample.granted Sample.api)
       Sample.gateway "acc1" []).2
  = [("https://org.crm.dynamics.com/api/data/v9.2/contacts?$filter=_parentcustomerid_value eq acc1",
      {| init_method := "GET";
         init_headers := standard_headers "t0k3n";
         init_body := None |})].
Proof.
  split.
  - exact (proj1 (getAssociatedContacts_request
                    (Sample.world Sample.granted Sample.api) Sample.gateway
                    "" []) eq_refl).
  - assert ("acc1" ≠ "") as Hid by discriminate.
    destruct (proj2 (getAssociatedContacts_request
                       (Sample.world Sample.granted Sample.api) Sample.gateway
                       "acc1" []) Hid) as [_ Hrequest].
    destruct (Hrequest Sample.base_url "t0k3n" (sample_grants []))
      as [Hfetches _].
    exact Hfetches.
Defined.

Lemma makeWhoAmIRequest_flow_witness :
  ∃ made,
    makeWhoAmIRequest (Sample.world Sample.granted Sample.api)
      Sample.gateway []
    = (Returned
         (JObj [("UserId", JStr "u1"); ("BusinessUnitId", JStr "b1");
                ("OrganizationId", JStr "o1"); ("UserName", JStr "jdoe");
                ("FullName", JStr "Jane Doe")]),
       made) ∧
    (fetches made).*1
    = ["https://org.crm.dynamics.com/api/data/v9.2/WhoAmI";
       "https://org.crm.dynamics.com/api/data/v9.2/systemusers(u1)"].
Proof.
  destruct (makeWhoAmIRequest_flow
              (Sample.world Sample.granted Sample.api) Sample.gateway [])
    as (_ & _ & Hcarries).
  destruct (Hcarries Sample.whoami eq_refl eq_refl)
    as (props & UserId & [= <-] & [= <-] & _ & Hconverts).
  destruct (Hconverts "u1" eq_refl) as (_ & _ & Hmerged).
  destruct (Hmerged Sample.user_details eq_refl) as
    (domainname & fullname & [= <-] & [= <-] & Hresult & _);
    [discriminate|discriminate|].
  eexists. split; [exact Hresult|reflexivity].
Defined.

(** * Further properties of the gateway *)

Section PrimitiveFurther.
Context {Num : Type} `{!JsNumber Num} (w : World Num).
Implicit Types (this : Dynamics365) (history made : list (Event Num)).
Implicit Types (body data : JsVal Num) (e cause : JsThrown Num).
Implicit Types (additionalHeaders : option (gmap string string)).
Implicit Types (out : Outcome Num (JsVal Num)).

(** What the answer handling logs: nothing when it returns, and when it
    throws, once, the cause whose message the thrown error wraps. *)
Lemma handle_answer_logged url (answer : Outcome Num (Response Num)) :
  match (handle_answer url answer).1 with
  | Returned _ => (handle_answer url answer).2 = []
  | Threw e =>
      ∃ cause,
        (handle_answer url answer).2
        = [ConsoleError ("API request to " +:+ url +:+ " failed:") cause] ∧
        e = new_Error (api_prefix +:+ error_text cause)
  end.
Proof.
  unfold handle_answer, api_failure.
  destruct answer as [response|error]; simpl; eauto.
  destruct (response_ok response).
  - destruct (response_json response); simpl; eauto.
  - destruct (response_text response); simpl; eauto.
Qed.

Lemma handle_answer_returned url (answer : Outcome Num (Response Num)) v :
  (handle_answer url answer).1 = Returned v ↔
  ∃ response,
    answer = Returned response ∧ response_ok response = true ∧
    response_json response = Returned v.
Proof.
  unfold handle_answer, api_failure. split.
  - destruct answer as [response|error]; simpl; [|done].
    destruct (response_ok response) eqn:Hok.
    + destruct (response_json response) eqn:Hjson; simpl; [|done].
      intros [= ->]. by exists response.
    + by destruct (response_text response).
  - intros (response & -> & -> & ->). done.
Qed.

(** X1: one invocation of the request primitive never repeats anything: it
    makes at most one credential exchange, at most one HTTP request, and no
    HTTP request without a credential exchange. *)
Theorem makeApiRequest_no_retry this endpoint method body additionalHeaders
    history :
  let made :=
    (makeApiRequest w this endpoint method body additionalHeaders history).2 in
  (length (acquisitions made) ≤ 1)%nat ∧
  (length (fetches made) ≤ 1)%nat ∧
  (length (fetches made) ≤ length (acquisitions made))%nat.
Proof.
  intros made. subst made.
  destruct (makeApiRequest_run w this endpoint method body additionalHeaders
              history) as [e Hbad|origin cause Horigin Hcause
                          |origin token Hgrants acquire url init answer];
    cbn [snd].
  - simpl. lia.
  - simpl. lia.
  - subst acquire.
    rewrite (fetches_granted _ _ _ _ _ (proj1 (handle_answer_quiet url answer))).
    rewrite (acquisitions_granted _ _ _ _ _
               (proj2 (handle_answer_quiet url answer))).
    simpl. lia.
Qed.

(** X2: the request primitive returns a value exactly when the credential
    exchange grants a token, the response has a success status and its body
    decodes; the value is the decoded body, and the run then consists of the
    exchange and the request alone. *)
Theorem makeApiRequest_returns_iff this endpoint method body additionalHeaders
    history v :
  (makeApiRequest w this endpoint method body additionalHeaders history).1
    = Returned v ↔
  ∃ origin token response,
    grants w this history origin token ∧
    fetch w
      (history ++ [AcquireToken (msalInstance this) (token_request origin)])
      (request_url (d365Url this) endpoint)
      (request_init method token body additionalHeaders) = Returned response ∧
    response_ok response = true ∧
    response_json response = Returned v ∧
    (makeApiRequest w this endpoint method body additionalHeaders history).2
    = [AcquireToken (msalInstance this) (token_request origin);
       Fetch (request_url (d365Url this) endpoint)
         (request_init method token body additionalHeaders)].
Proof.
  split.
  - destruct (makeApiRequest_run w this endpoint method body additionalHeaders
                history) as [e Hbad|origin cause Horigin Hcause
                            |origin token Hgrants acquire url init answer];
      cbn [fst snd]; [done|done|].
    intros Hreturned.
    pose proof (handle_answer_logged url answer) as Hlogged.
    rewrite Hreturned in Hlogged. rewrite Hlogged.
    apply handle_answer_returned in Hreturned
      as (response & Hanswer & Hok & Hjson).
    by exists origin, token, response.
  - intros (origin & token & response & Hgrants & Hanswer & Hok & Hjson & _).
    rewrite (makeApiRequest_granted w _ _ _ _ _ _ _ _ Hgrants). cbn [fst].
    apply handle_answer_returned. by exists response.
Qed.

(** X3: once the base URL parses, a run of the request primitive calls
    [console.error] exactly when it throws, and then once, with the cause
    whose message the thrown error wraps. *)
Theorem failure_logged_once this endpoint method body additionalHeaders
    history origin out made :
  URL_origin w (d365Url this) = Returned origin →
  makeApiRequest w this endpoint method body additionalHeaders history
    = (out, made) →
  match out with
  | Returned _ => console_errors made = []
  | Threw e =>
      ∃ label cause,
        console_errors made = [(label, cause)] ∧
        (e = new_Error (auth_prefix +:+ error_text cause) ∨
         e = new_Error (api_prefix +:+ error_text cause))
  end.
Proof.
  intros Horigin Hrun.
  pose proof (makeApiRequest_run w this endpoint method body
                additionalHeaders history) as Hcases.
  rewrite Hrun in Hcases.
  inversion Hcases as [e' Hbad|origin' cause' Horigin' Hcause'
                      |origin' token Hgrants]; subst.
  - congruence.
  - exists "Token acquisition failed:", cause'. split; [done|by left].
  - subst acquire url init answer.
    match goal with |- context [handle_answer ?u ?a] =>
      pose proof (handle_answer_logged u a) as Hlogged;
      destruct (handle_answer u a) as [[v|e] tail] end; cbn [fst snd] in *.
    + by rewrite Hlogged.
    + destruct Hlogged as (cause & -> & ->). eexists _, cause.
      split; [reflexivity|by right].
Qed.

(** X4: when the base URL does not parse, the parser's error comes out of
    every operation as it is, unwrapped, and no platform call is made: no
    credential exchange, no request, no log line. *)
Theorem unparsable_base_url_fails_every_operation this history e :
  URL_origin w (d365Url this) = Threw e →
  makeWhoAmIRequest w this history = (Threw e, []) ∧
  getAccounts w this history = (Threw e, []) ∧
  (∀ accountId,
     accountId ≠ "" →
     getAssociatedContacts w this accountId history = (Threw e, []) ∧
     getAssociatedOpportunities w this accountId history = (Threw e, [])) ∧
  (∀ accountData,
     truthy accountData = true →
     createAccount w this accountData history = (Threw e, [])) ∧
  (∀ accountId accountData,
     accountId ≠ "" →
     truthy accountData = true →
     updateAccount w this accountId accountData history = (Threw e, [])).
Proof.
  intros Hbad.
  pose proof (λ endpoint method body additionalHeaders,
                makeApiRequest_bad_base_url w this endpoint method body
                  additionalHeaders history e Hbad) as Hprimitive.
  split_and!.
  - unfold makeWhoAmIRequest, bind. by rewrite Hprimitive.
  - apply Hprimitive.
  - intros accountId Hid. apply String.eqb_neq in Hid.
    unfold getAssociatedContacts, getAssociatedOpportunities.
    rewrite Hid. split; apply Hprimitive.
  - intros accountData Hdata. unfold createAccount. rewrite Hdata.
    apply Hprimitive.
  - intros accountId accountData Hid Hdata. apply String.eqb_neq in Hid.
    unfold updateAccount. rewrite Hid, Hdata. apply Hprimitive.
Qed.

End PrimitiveFurther.

Section OperationsFurther.
Context {Num : Type} `{!JsNumber Num} (w : World Num).
Implicit Types (this : Dynamics365) (history made : list (Event Num)).
Implicit Types (accountData data : JsVal Num) (accountId : string).
Implicit Types (e : JsThrown Num).

Lemma request_init_with_body method token accountData :
  truthy accountData = true →
  request_init method token accountData None
  = {| init_method := method;
       init_headers := standard_headers token;
       init_body := Some accountData |}.
Proof.
  intros Hdata. unfold request_init, request_headers. rewrite Hdata. simpl.
  by rewrite (left_id_L ∅ (∪)).
Qed.

(** X5: [getAccounts] is one call of the request primitive: with a token,
    one GET of [api/data/v9.2/accounts] without a body and with the standard
    headers alone; the decoded body of a successful response is returned
    whole, envelope included. *)
Theorem getAccounts_request this history origin token :
  grants w this history origin token →
  let url := request_url (d365Url this) "api/data/v9.2/accounts" in
  let init :=
    {| init_method := "GET";
       init_headers := standard_headers token;
       init_body := None |} in
  fetches (getAccounts w this history).2 = [(url, init)] ∧
  ∀ response v,
    fetch w
      (history ++ [AcquireToken (msalInstance this) (token_request origin)])
      url init = Returned response →
    response_ok response = true →
    response_json response = Returned v →
    (getAccounts w this history).1 = Returned v.
Proof.
  intros Hgrants. cbv zeta. unfold getAccounts.
  rewrite <- (request_init_get token). split.
  - by rewrite (makeApiRequest_single_request _ _ _ _ _ _ _ _ _ Hgrants).
  - intros response v Hanswer Hok Hjson.
    by apply (makeApiRequest_decoded _ _ _ _ _ _ _ _ _ _ _ Hgrants Hanswer).
Qed.

(** X6: with account data present, [createAccount] is one call of the
    request primitive: with a token, one POST of [api/data/v9.2/accounts]
    whose body is the account data, with the standard headers alone; the
    decoded body of a successful response is returned. *)
Theorem createAccount_request this accountData history origin token :
  truthy accountData = true →
  grants w this history origin token →
  let url := request_url (d365Url this) "api/data/v9.2/accounts" in
  let init :=
    {| init_method := "POST";
       init_headers := standard_headers token;
       init_body := Some accountData |} in
  fetches (createAccount w this accountData history).2 = [(url, init)] ∧
  ∀ response v,
    fetch w
      (history ++ [AcquireToken (msalInstance this) (token_request origin)])
      url init = Returned response →
    response_ok response = true →
    response_json response = Returned v →
    (createAccount w this accountData history).1 = Returned v.
Proof.
  intros Hdata Hgrants. cbv zeta. unfold createAccount. rewrite Hdata.
  cbn [negb]. rewrite <- (request_init_with_body "POST" token _ Hdata). split.
  - by rewrite (makeApiRequest_single_request _ _ _ _ _ _ _ _ _ Hgrants).
  - intros response v Hanswer Hok Hjson.
    by apply (makeApiRequest_decoded _ _ _ _ _ _ _ _ _ _ _ Hgrants Hanswer).
Qed.

(** X7: with a non-empty account id and account data present,
    [updateAccount] is one call of the request primitive: with a token, one
    PATCH of [api/data/v9.2/accounts(<accountId>)], the id put in as it is,
    whose body is the account data, with the standard headers alone; the
    decoded body of a successful response is returned. *)
Theorem updateAccount_request this accountId accountData history origin token :
  accountId ≠ "" →
  truthy accountData = true →
  grants w this history origin token →
  let url :=
    request_url (d365Url this)
      ("api/data/v9.2/accounts(" +:+ accountId +:+ ")") in
  let init :=
    {| init_method := "PATCH";
       init_headers := standard_headers token;
       init_body := Some accountData |} in
  fetches (updateAccount w this accountId accountData history).2
  = [(url, init)] ∧
  ∀ response v,
    fetch w
      (history ++ [AcquireToken (msalInstance this) (token_request origin)])
      url init = Returned response →
    response_ok response = true →
    response_json response = Returned v →
    (updateAccount w this accountId accountData history).1 = Returned v.
Proof.
  intros Hid Hdata Hgrants. cbv zeta. unfold updateAccount.
  apply String.eqb_neq in Hid. rewrite Hid, Hdata. cbn [negb].
  rewrite <- (request_init_with_body "PATCH" token _ Hdata). split.
  - by rewrite (makeApiRequest_single_request _ _ _ _ _ _ _ _ _ Hgrants).
  - intros response v Hanswer Hok Hjson.
    by apply (makeApiRequest_decoded _ _ _ _ _ _ _ _ _ _ _ Hgrants Hanswer).
Qed.

End OperationsFurther.

Section CurrentUserFurther.
Context {Num : Type} `{!JsNumber Num} (w : World Num).
Implicit Types (this : Dynamics365) (history made : list (Event Num)).
Implicit Types (data details : JsVal Num) (e : JsThrown Num).

(** The counts of one invocation of the primitive. *)
Lemma makeApiRequest_counts this endpoint method body additionalHeaders
    history :
  let made :=
    (makeApiRequest w this endpoint method body additionalHeaders history).2 in
  (length (acquisitions made) ≤ 1)%nat ∧
  (length (fetches made) ≤ length (acquisitions made))%nat.
Proof.
  intros made. subst made.
  destruct (makeApiRequest_run w this endpoint method body additionalHeaders
              history) as [e Hbad|origin cause Horigin Hcause
                          |origin token Hgrants acquire url init answer];
    cbn [snd]; [simpl; lia|simpl; lia|].
  subst acquire.
  rewrite (fetches_granted _ _ _ _ _ (proj1 (handle_answer_quiet url answer))).
  rewrite (acquisitions_granted _ _ _ _ _
             (proj2 (handle_answer_quiet url answer))).
  simpl. lia.
Qed.

(** What a run of [makeWhoAmIRequest] comes to, by the outcome of its first
    call, of the conversion of the identifier and, when there is one, of its
    second call. *)
Lemma makeWhoAmIRequest_cases this history :
  let first :=
    makeApiRequest w this "api/data/v9.2/WhoAmI" "GET" JUndefined None history in
  match first.1 with
  | Threw e => makeWhoAmIRequest w this history = (Threw e, first.2)
  | Returned data =>
      if carries_UserId data then
        ∃ props UserId,
          data = JObj props ∧ lookup_prop "UserId" props = Some UserId ∧
          match to_string UserId with
          | Threw e => makeWhoAmIRequest w this history = (Threw e, first.2)
          | Returned id =>
              let second :=
                makeApiRequest w this
                  ("api/data/v9.2/systemusers(" +:+ id +:+ ")")
                  "GET" JUndefined (Some prefer_annotations)
                  (history ++ first.2) in
              makeWhoAmIRequest w this history
              = (match second.1 with
                 | Threw e => Threw e
                 | Returned details =>
                     match get_prop details "domainname",
                           get_prop details "fullname" with
                     | Returned domainname, Returned fullname =>
                         Returned
                           (JObj (assign_prop "FullName" fullname
                                    (assign_prop "UserName" domainname props)))
                     | Threw e, _ => Threw e
                     | _, Threw e => Threw e
                     end
                 end,
                 first.2 ++ second.2)
          end
      else makeWhoAmIRequest w this history = (Returned data, first.2)
  end.
Proof.
  intros first. subst first. unfold makeWhoAmIRequest.
  match goal with |- context [bind _ ?k] => set (rest := k) end.
  unfold bind.
  destruct (makeApiRequest w this "api/data/v9.2/WhoAmI" "GET" JUndefined None
              history) as [[data|e] made1]; cbn [fst snd]; [|done].
  pose proof (UserId_condition data) as Hcondition.
  subst rest. cbv beta.
  destruct (carries_UserId data).
  - destruct Hcondition
      as (props & UserId & -> & Hid & Htruthy & Hget & Hidtruthy).
    exists props, UserId. split; [done|]. split; [done|].
    rewrite Htruthy, Hget, bind_settle_returned, Hidtruthy,
      bind_settle_returned.
    destruct (to_string UserId) as [id|e].
    2: { rewrite bind_settle_threw. by rewrite app_nil_r. }
    cbv zeta. rewrite bind_settle_returned.
    change (Some {[ "Prefer" := _ ]}) with (Some prefer_annotations).
    unfold bind at 1.
    destruct (makeApiRequest w this
                ("api/data/v9.2/systemusers(" +:+ id +:+ ")")
                "GET" JUndefined (Some prefer_annotations)
                (history ++ made1)) as [[details|e] made2]; cbn [fst snd];
      [|done].
    destruct details;
      repeat first [ rewrite bind_settle_returned
                   | rewrite bind_settle_threw
                   | progress simpl get_prop
                   | progress simpl set_prop ];
      unfold ret; rewrite ?app_nil_r; done.
  - destruct Hcondition as (condition & Hcondition & Hfalsy).
    assert ((if truthy data then settle (get_prop data "UserId") else ret data)
            = settle (Returned condition)) as ->.
    { unfold ret. destruct (truthy data); by rewrite <- Hcondition. }
    rewrite bind_settle_returned, Hfalsy. unfold ret. by rewrite app_nil_r.
Qed.

(** Induction on plain data, through arrays and objects. *)
Lemma JsVal_nested_ind (P : JsVal Num → Prop) :
  P JUndefined → P JNull → (∀ b, P (JBool b)) → (∀ n, P (JNum n)) →
  (∀ s, P (JStr s)) →
  (∀ items, Forall P items → P (JArr items)) →
  (∀ props, Forall (λ member, P member.2) props → P (JObj props)) →
  ∀ v, P v.
Proof.
  intros Hundefined Hnull Hbool Hnum Hstr Harr Hobj.
  fix IH 1. intros [| |b|n|s|items|props];
    [apply Hundefined|apply Hnull|apply Hbool|apply Hnum|apply Hstr| |].
  - apply Harr. induction items as [|x items IHitems]; constructor;
      [apply IH|apply IHitems].
  - apply Hobj. induction props as [|[key x] props IHprops]; constructor;
      [apply IH|apply IHprops].
Qed.

Lemma join_elements_threw (converted : list (Outcome Num string)) e :
  join_elements converted = Threw e → Threw e ∈ converted.
Proof.
  induction converted as [|first rest IHrest]; [done|].
  destruct rest as [|second rest].
  - simpl. intros ->. apply list_elem_of_here.
  - change (join_elements (first :: second :: rest))
      with (match first with
            | Threw e => Threw e
            | Returned head =>
                match join_elements (second :: rest) with
                | Threw e => Threw e
                | Returned others => Returned (head +:+ "," +:+ others)
                end
            end).
    destruct first as [head|e'].
    + destruct (join_elements (second :: rest)) as [others|e''];
        [discriminate|].
      intros [= <-]. apply list_elem_of_further. by apply IHrest.
    + intros [= <-]. apply list_elem_of_here.
Qed.

(** The one way a conversion to a string fails. *)
Lemma to_string_threw (v : JsVal Num) e :
  to_string v = Threw e →
  e = new_TypeError "Cannot convert object to primitive value".
Proof.
  induction v as [| |b|n|s|items IHitems|props _] using JsVal_nested_ind;
    simpl; try done.
  - by destruct b.
  - intros Hjoin. apply join_elements_threw in Hjoin.
    apply list_elem_of_fmap in Hjoin as (x & Hx & Hin).
    rewrite Forall_forall in IHitems. specialize (IHitems x Hin).
    destruct x; try done; by apply IHitems.
  - destruct (lookup_prop "toString" props); [|done]. by intros [= <-].
Qed.

Lemma fetches_app made made' :
  fetches (made ++ made') = fetches made ++ fetches made'.
Proof. apply omap_app. Qed.

Lemma acquisitions_app made made' :
  acquisitions (made ++ made') = acquisitions made ++ acquisitions made'.
Proof. apply omap_app. Qed.

(** X8: when the identity response carries a user identifier that converts
    to a string and the user lookup answers [null], the operation throws the
    engine's [TypeError] for reading [domainname] of [null], not an error of
    the gateway's own, after both calls have been made. *)
Theorem makeWhoAmIRequest_null_lookup this history props UserId id made1
    made2 :
  makeApiRequest w this "api/data/v9.2/WhoAmI" "GET" JUndefined None history
    = (Returned (JObj props), made1) →
  lookup_prop "UserId" props = Some UserId →
  truthy UserId = true →
  to_string UserId = Returned id →
  makeApiRequest w this
    ("api/data/v9.2/systemusers(" +:+ id +:+ ")")
    "GET" JUndefined (Some prefer_annotations) (history ++ made1)
    = (Returned JNull, made2) →
  makeWhoAmIRequest w this history
  = (Threw (new_TypeError
              "Cannot read properties of null (reading 'domainname')"),
     made1 ++ made2) ∧
  error_class (new_TypeError
                 "Cannot read properties of null (reading 'domainname')"
               : JsThrown Num) = Some "TypeError".
Proof.
  intros Hfirst Hid Htruthy Hconverts Hsecond.
  pose proof (makeWhoAmIRequest_cases this history) as Hcases.
  cbv zeta in Hcases. rewrite Hfirst in Hcases. cbn [fst snd] in Hcases.
  unfold carries_UserId in Hcases. rewrite Hid, Htruthy in Hcases.
  destruct Hcases as (props' & UserId' & [= <-] & Hid' & Hrun).
  assert (UserId' = UserId) as -> by congruence.
  rewrite Hconverts in Hrun. cbv zeta in Hrun.
  rewrite Hsecond in Hrun. by split.
Qed.

(** X9: [makeWhoAmIRequest] makes at most two credential exchanges and at
    most as many HTTP requests as exchanges, so at most two. *)
Theorem makeWhoAmIRequest_at_most_two_requests this history :
  let made := (makeWhoAmIRequest w this history).2 in
  (length (acquisitions made) ≤ 2)%nat ∧
  (length (fetches made) ≤ length (acquisitions made))%nat.
Proof.
  cbv zeta.
  pose proof (makeWhoAmIRequest_cases this history) as Hcases.
  cbv zeta in Hcases.
  pose proof (makeApiRequest_counts this "api/data/v9.2/WhoAmI" "GET"
                JUndefined None history) as Hfirst.
  cbv zeta in Hfirst.
  destruct (makeApiRequest w this "api/data/v9.2/WhoAmI" "GET" JUndefined None
              history) as [[data|e] made1]; cbn [fst snd] in *.
  2: { rewrite Hcases. cbn [snd]. lia. }
  destruct (carries_UserId data).
  - destruct Hcases as (props & UserId & -> & Hid & Hrun).
    destruct (to_string UserId) as [id|e]; [|rewrite Hrun; cbn [snd]; lia].
    cbv zeta in Hrun. rewrite Hrun. cbn [snd].
    pose proof (makeApiRequest_counts this
                  ("api/data/v9.2/systemusers(" +:+ id +:+ ")")
                  "GET" JUndefined (Some prefer_annotations)
                  (history ++ made1)) as Hsecond.
    cbv zeta in Hsecond.
    rewrite fetches_app, acquisitions_app, !length_app. lia.
  - rewrite Hcases. cbn [snd]. lia.
Qed.

Lemma makeApiRequest_throws_error this endpoint method body additionalHeaders
    history e :
  (∀ s e', URL_origin w s = Threw e' → is_Some (error_class e')) →
  (makeApiRequest w this endpoint method body additionalHeaders history).1
    = Threw e →
  is_Some (error_class e).
Proof.
  intros Hparser.
  destruct (makeApiRequest_run w this endpoint method body additionalHeaders
              history) as [e' Hbad|origin cause Horigin Hcause
                          |origin token Hgrants acquire url init answer];
    cbn [fst].
  - intros [= <-]. by apply (Hparser _ _ Hbad).
  - by intros [= <-].
  - intros Hthrew. by apply handle_answer_threw in Hthrew as [detail ->].
Qed.

Lemma makeWhoAmIRequest_throws_error this history e :
  (∀ s e', URL_origin w s = Threw e' → is_Some (error_class e')) →
  (makeWhoAmIRequest w this history).1 = Threw e →
  is_Some (error_class e).
Proof.
  intros Hparser.
  pose proof (makeWhoAmIRequest_cases this history) as Hcases.
  cbv zeta in Hcases.
  pose proof (makeApiRequest_throws_error this "api/data/v9.2/WhoAmI" "GET"
                JUndefined None history) as Hfirst.
  destruct (makeApiRequest w this "api/data/v9.2/WhoAmI" "GET" JUndefined None
              history) as [[data|e1] made1]; cbn [fst snd] in *.
  2: { rewrite Hcases. cbn [fst]. intros [= <-]. by apply Hfirst. }
  destruct (carries_UserId data).
  - destruct Hcases as (props & UserId & -> & Hid & Hrun).
    destruct (to_string UserId) as [id|e2] eqn:Hconverts.
    2: { rewrite Hrun. cbn [fst]. intros [= <-].
         by rewrite (to_string_threw _ _ Hconverts). }
    cbv zeta in Hrun. rewrite Hrun. cbn [fst].
    pose proof (makeApiRequest_throws_error this
                  ("api/data/v9.2/systemusers(" +:+ id +:+ ")")
                  "GET" JUndefined (Some prefer_annotations)
                  (history ++ made1)) as Hsecond.
    destruct (makeApiRequest w this _ "GET" JUndefined
                (Some prefer_annotations) (history ++ made1))
      as [[details|e2] made2]; cbn [fst snd] in *.
    + destruct details; simpl; intros [= <-]; done.
    + intros [= <-]. by apply Hsecond.
  - by rewrite Hcases.
Qed.

(** Whatever an operation throws is an [Error], if the parser's are. *)
Lemma operations_throw_errors this history :
  (∀ s e, URL_origin w s = Threw e → is_Some (error_class e)) →
  (∀ e, (makeWhoAmIRequest w this history).1 = Threw e →
        is_Some (error_class e)) ∧
  (∀ e, (getAccounts w this history).1 = Threw e →
        is_Some (error_class e)) ∧
  (∀ accountId e,
     (getAssociatedContacts w this accountId history).1 = Threw e →
     is_Some (error_class e)) ∧
  (∀ accountId e,
     (getAssociatedOpportunities w this accountId history).1 = Threw e →
     is_Some (error_class e)) ∧
  (∀ accountData e,
     (createAccount w this accountData history).1 = Threw e →
     is_Some (error_class e)) ∧
  (∀ accountId accountData e,
     (updateAccount w this accountId accountData history).1 = Threw e →
     is_Some (error_class e)).
Proof.
  intros Hparser. split_and!.
  - intros e. by apply makeWhoAmIRequest_throws_error.
  - intros e. by apply makeApiRequest_throws_error.
  - intros accountId e. unfold getAssociatedContacts.
    destruct (String.eqb accountId "");
      [by intros [= <-]|by apply makeApiRequest_throws_error].
  - intros accountId e. unfold getAssociatedOpportunities.
    destruct (String.eqb accountId "");
      [by intros [= <-]|by apply makeApiRequest_throws_error].
  - intros accountData e. unfold createAccount.
    destruct (truthy accountData); cbn [negb];
      [by apply makeApiRequest_throws_error|by intros [= <-]].
  - intros accountId accountData e. unfold updateAccount.
    destruct (String.eqb accountId ""); [by intros [= <-]|].
    destruct (truthy accountData); cbn [negb];
      [by apply makeApiRequest_throws_error|by intros [= <-]].
Qed.

(** X10: if the URL parser only ever throws instances of [Error], then so
    does every operation of the gateway: whatever it throws passes
    [error instanceof Error] and has a message. *)
Theorem thrown_values_are_errors this history :
  (∀ s e, URL_origin w s = Threw e → is_Some (error_class e)) →
  (∀ e, (makeWhoAmIRequest w this history).1 = Threw e →
        is_Some (error_class e)) ∧
  (∀ e, (getAccounts w this history).1 = Threw e →
        is_Some (error_class e)) ∧
  (∀ accountId e,
     (getAssociatedContacts w this accountId history).1 = Threw e →
     is_Some (error_class e)) ∧
  (∀ accountId e,
     (getAssociatedOpportunities w this accountId history).1 = Threw e →
     is_Some (error_class e)) ∧
  (∀ accountData e,
     (createAccount w this accountData history).1 = Threw e →
     is_Some (error_class e)) ∧
  (∀ accountId accountData e,
     (updateAccount w this accountId accountData history).1 = Threw e →
     is_Some (error_class e)).
Proof. apply operations_throw_errors. Qed.

End CurrentUserFurther.

(** * Start-up and the tool layer *)

(** X11: start-up goes on with a gateway exactly when the four variables
    are all set and non-empty, and the gateway is then built from their
    values; in every other case the process logs the one message about
    missing variables and exits with code 1. *)
Theorem startup_started_iff (env : gmap string string) :
  (∀ d365,
     startup env = Started d365 ↔
     ∃ clientId clientSecret tenantId url,
       env !! "CLIENT_ID" = Some clientId ∧
       env !! "CLIENT_SECRET" = Some clientSecret ∧
       env !! "TENANT_ID" = Some tenantId ∧
       env !! "D365_URL" = Some url ∧
       clientId ≠ "" ∧ clientSecret ≠ "" ∧ tenantId ≠ "" ∧ url ≠ "" ∧
       d365 = new_Dynamics365 clientId clientSecret tenantId url) ∧
  ((∃ d365, startup env = Started d365) ∨
   startup env
   = Exited 1
       "Missing required environment variables. Please check your .env file.").
Proof.
  unfold startup.
  destruct (env !! "CLIENT_ID") as [clientId|];
    [destruct (env !! "CLIENT_SECRET") as [clientSecret|];
     [destruct (env !! "TENANT_ID") as [tenantId|];
      [destruct (env !! "D365_URL") as [url|]|]|]|].
  2-5: split; [|by right];
       intros d365; split; [done|];
       by intros (? & ? & ? & ? & ? & ? & ? & ? & _).
  destruct (String.eqb_spec clientId ""), (String.eqb_spec clientSecret ""),
    (String.eqb_spec tenantId ""), (String.eqb_spec url ""); simpl.
  1-15: split; [|by right];
        intros d365; split; [done|];
        intros (? & ? & ? & ? & ? & ? & ? & ? & ? & ? & ? & ? & _);
        by simplify_eq.
  split; [|left; eauto].
  intros d365. split.
  - intros [= <-]. by exists clientId, clientSecret, tenantId, url.
  - intros (? & ? & ? & ? & ? & ? & ? & ? & _ & _ & _ & _ & ->).
    by simplify_eq.
Qed.

Lemma startup_started_iff_witness :
  startup SampleHost.env = Started Sample.gateway.
Proof.
  apply (proj1 (startup_started_iff SampleHost.env) Sample.gateway).
  exists "client-id", "client-secret", "tenant-id", Sample.base_url.
  split_and!; try reflexivity; discriminate.
Defined.

Section HostFurther.
Context {Num : Type} `{!JsNumber Num} (w : World Num).
Implicit Types (history made : list (Event Num)).
Implicit Types (accountData response : JsVal Num) (accountId : string).
Implicit Types (e : JsThrown Num).

(** X12: a gateway that start-up built sends every credential exchange with
    the client id and secret of the environment, the authority of its tenant
    and the one scope [<origin>/.default] of its base URL, and sends every
    HTTP request to its base URL joined with the endpoint, by the method
    asked for. *)
Theorem started_gateway_uses_environment (env : gmap string string)
    (d365 : Dynamics365)
    endpoint method body additionalHeaders history :
  startup env = Started d365 →
  let made :=
    (makeApiRequest w d365 endpoint method body additionalHeaders history).2 in
  ∃ clientId clientSecret tenantId url,
    env !! "CLIENT_ID" = Some clientId ∧
    env !! "CLIENT_SECRET" = Some clientSecret ∧
    env !! "TENANT_ID" = Some tenantId ∧
    env !! "D365_URL" = Some url ∧
    (∀ config request,
       (config, request) ∈ acquisitions made →
       config = {| auth_clientId := clientId;
                   auth_authority :=
                     "https://login.microsoftonline.com/" +:+ tenantId;
                   auth_clientSecret := clientSecret |} ∧
       ∃ origin,
         URL_origin w url = Returned origin ∧
         request = {| scopes := [origin +:+ "/.default"] |}) ∧
    (∀ target init,
       (target, init) ∈ fetches made →
       target = request_url url endpoint ∧ init_method init = method).
Proof.
  intros Hstarted made. subst made. unfold startup in Hstarted.
  destruct (env !! "CLIENT_ID") as [clientId|]; [|done].
  destruct (env !! "CLIENT_SECRET") as [clientSecret|]; [|done].
  destruct (env !! "TENANT_ID") as [tenantId|]; [|done].
  destruct (env !! "D365_URL") as [url|]; [|done].
  destruct (_ || _); [done|]. injection Hstarted as <-.
  exists clientId, clientSecret, tenantId, url.
  split_and!; try done.
  - intros config request.
    destruct (makeApiRequest_run w
                (new_Dynamics365 clientId clientSecret tenantId url)
                endpoint method body additionalHeaders history)
      as [e Hbad|origin cause Horigin Hcause
         |origin token Hgrants acquire target init answer]; cbn [snd].
    + intros Hin. by apply elem_of_nil in Hin.
    + intros Hin. apply list_elem_of_singleton in Hin. simplify_eq.
      split; [done|]. by exists origin.
    + subst acquire.
      rewrite (acquisitions_granted _ _ _ _ _
                 (proj2 (handle_answer_quiet target answer))).
      intros Hin. apply list_elem_of_singleton in Hin. simplify_eq.
      split; [done|]. exists origin. split; [apply Hgrants|done].
  - intros target init.
    destruct (makeApiRequest_run w
                (new_Dynamics365 clientId clientSecret tenantId url)
                endpoint method body additionalHeaders history)
      as [e Hbad|origin cause Horigin Hcause
         |origin token Hgrants acquire target' init' answer]; cbn [snd].
    + intros Hin. by apply elem_of_nil in Hin.
    + intros Hin. by apply elem_of_nil in Hin.
    + subst acquire.
      rewrite (fetches_granted _ _ _ _ _
                 (proj1 (handle_answer_quiet target' answer))).
      intros Hin. apply list_elem_of_singleton in Hin. by simplify_eq.
Qed.

(** A handler that only wraps an operation. *)
Lemma tool_wrap (op : Js Num (JsVal Num)) advice history :
  try_catch
    (let* response := op in
     ret {| content_text := Json response; isError := false |})
    (λ error, ret (tool_failure advice error)) history
  = (Returned
       match (op history).1 with
       | Returned response =>
           {| content_text := Json response; isError := false |}
       | Threw e => tool_failure advice e
       end,
     (op history).2).
Proof.
  unfold try_catch, bind, ret.
  destruct (op history) as [[response|e] made]; simpl; by rewrite app_nil_r.
Qed.

(** What ["get-user-info"] makes of the gateway's answer. *)
Lemma tool_get_user_info_run (d365 : Dynamics365) history :
  tool_get_user_info w d365 history
  = (Returned
       match (makeWhoAmIRequest w d365 history).1 with
       | Returned response =>
           match greeting response with
           | Returned text => {| content_text := Text text; isError := false |}
           | Threw e => tool_failure check_credentials e
           end
       | Threw e => tool_failure check_credentials e
       end,
     (makeWhoAmIRequest w d365 history).2).
Proof.
  unfold tool_get_user_info, try_catch. unfold bind at 1.
  destruct (makeWhoAmIRequest w d365 history) as [[response|e] made];
    cbn [fst snd]; [|unfold ret; by rewrite app_nil_r].
  unfold greeting.
  repeat match goal with
         | |- context [bind (settle ?o) _ _] =>
             destruct o;
             [rewrite bind_settle_returned|rewrite bind_settle_threw]
         end;
    unfold ret; simpl; by rewrite ?app_nil_r.
Qed.

(** Where a failure of the greeting comes from. *)
Lemma greeting_threw response e :
  greeting response = Threw e →
  ∃ cls message,
    e = ErrorObj cls message ∧
    (get_prop response "FullName" = Threw (ErrorObj cls message) ∨
     ∃ member v,
       member ∈ ["FullName"; "UserId"; "BusinessUnitId"] ∧
       get_prop response member = Returned v ∧
       to_string v = Threw (ErrorObj cls message)).
Proof.
  unfold greeting.
  destruct (get_prop response "FullName") as [FullName|e'] eqn:HFullName.
  2: { intros [= <-]. destruct response; simpl in HFullName; simplify_eq;
         eexists _, _; (split; [reflexivity|by left]). }
  assert (∀ member v e',
            member ∈ ["FullName"; "UserId"; "BusinessUnitId"] →
            get_prop response member = Returned v →
            to_string v = Threw e' →
            ∃ cls message,
              e' = ErrorObj cls message ∧
              (Returned FullName = Threw (ErrorObj cls message)
                 :> Outcome Num (JsVal Num) ∨
               ∃ member' v',
                 member' ∈ ["FullName"; "UserId"; "BusinessUnitId"] ∧
                 get_prop response member' = Returned v' ∧
                 to_string v' = Threw (ErrorObj cls message)))
    as Hconversion.
  { intros member v e' Hmember Hread Hthrew.
    pose proof (to_string_threw _ _ Hthrew) as ->.
    eexists _, _. split; [reflexivity|]. right. by exists member, v. }
  destruct (to_string FullName) as [name|e'] eqn:Hname.
  2: { intros [= <-].
       apply (Hconversion "FullName" FullName); [set_solver|done..]. }
  destruct (get_prop response "UserId") as [UserId|e'] eqn:HUserId.
  2: { destruct response; simpl in *; simplify_eq. }
  destruct (to_string UserId) as [id|e'] eqn:Hid.
  2: { intros [= <-].
       apply (Hconversion "UserId" UserId); [set_solver|done..]. }
  destruct (get_prop response "BusinessUnitId")
    as [BusinessUnitId|e'] eqn:HBusinessUnitId.
  2: { destruct response; simpl in *; simplify_eq. }
  destruct (to_string BusinessUnitId) as [unit|e'] eqn:Hunit; [done|].
  intros [= <-].
  apply (Hconversion "BusinessUnitId" BusinessUnitId); [set_solver|done..].
Qed.

(** What ["fetch-accounts"] makes of the gateway's answer. *)
Lemma tool_fetch_accounts_run (d365 : Dynamics365) history :
  tool_fetch_accounts w d365 history
  = (Returned
       match (getAccounts w d365 history).1 with
       | Returned response =>
           match get_prop response "value" with
           | Returned value => {| content_text := Json value; isError := false |}
           | Threw e => tool_failure check_credentials e
           end
       | Threw e => tool_failure check_credentials e
       end,
     (getAccounts w d365 history).2).
Proof.
  unfold tool_fetch_accounts, try_catch. unfold bind at 1.
  destruct (getAccounts w d365 history) as [[response|e] made];
    cbn [fst snd]; [|unfold ret; by rewrite app_nil_r].
  destruct response;
    repeat first [ rewrite bind_settle_returned
                 | rewrite bind_settle_threw
                 | progress simpl get_prop ];
    unfold ret; simpl; by rewrite ?app_nil_r.
Qed.

(** X13: no tool handler ever throws, whatever the platform does: each
    returns a result, and makes no platform call beyond those of the gateway
    operation it runs. *)
Theorem tools_never_throw (d365 : Dynamics365) history :
  (∃ result,
     tool_get_user_info w d365 history
     = (Returned result, (makeWhoAmIRequest w d365 history).2)) ∧
  (∃ result,
     tool_fetch_accounts w d365 history
     = (Returned result, (getAccounts w d365 history).2)) ∧
  (∀ accountId, ∃ result,
     tool_get_associated_opportunities w d365 accountId history
     = (Returned result,
        (getAssociatedOpportunities w d365 accountId history).2)) ∧
  (∀ accountData, ∃ result,
     tool_create_account w d365 accountData history
     = (Returned result, (createAccount w d365 accountData history).2)) ∧
  (∀ accountId accountData, ∃ result,
     tool_update_account w d365 accountId accountData history
     = (Returned result,
        (updateAccount w d365 accountId accountData history).2)).
Proof.
  split_and!.
  - rewrite tool_get_user_info_run. eauto.
  - rewrite tool_fetch_accounts_run. eauto.
  - intros accountId. unfold tool_get_associated_opportunities.
    rewrite tool_wrap. eauto.
  - intros accountData. unfold tool_create_account. rewrite tool_wrap. eauto.
  - intros accountId accountData. unfold tool_update_account.
    rewrite tool_wrap. eauto.
Qed.

(** X14: the handlers of ["get-associated-opportunities"],
    ["create-account"] and ["update-account"] flag an error exactly when the
    gateway operation throws; the text is then "Error: ", the message of the
    thrown error (or "Unknown error" for a thrown non-error) and the advice
    to check the input, and otherwise the JSON text of the operation's
    result. *)
Theorem tool_reports_failure_iff (d365 : Dynamics365) history :
  let reports (op : Js Num (JsVal Num)) (tool : Js Num (ToolResult Num)) :=
    ∃ result,
      (tool history).1 = Returned result ∧
      (isError result = true ↔ ∃ e, (op history).1 = Threw e) ∧
      (∀ response,
         (op history).1 = Returned response →
         content_text result = Json response) ∧
      (∀ e,
         (op history).1 = Threw e →
         content_text result
         = Text ("Error: " +:+ tool_error_text e
                 +:+ ", please check your input and try again.")) in
  (∀ accountId,
     reports (getAssociatedOpportunities w d365 accountId)
             (tool_get_associated_opportunities w d365 accountId)) ∧
  (∀ accountData,
     reports (createAccount w d365 accountData)
             (tool_create_account w d365 accountData)) ∧
  (∀ accountId accountData,
     reports (updateAccount w d365 accountId accountData)
             (tool_update_account w d365 accountId accountData)).
Proof.
  assert (∀ op : Js Num (JsVal Num),
            ∃ result,
              (try_catch
                 (let* response := op in
                  ret {| content_text := Json response; isError := false |})
                 (λ error, ret (tool_failure check_input error)) history).1
              = Returned result ∧
              (isError result = true ↔ ∃ e, (op history).1 = Threw e) ∧
              (∀ response,
                 (op history).1 = Returned response →
                 content_text result = Json response) ∧
              (∀ e,
                 (op history).1 = Threw e →
                 content_text result
                 = Text ("Error: " +:+ tool_error_text e
                         +:+ ", please check your input and try again.")))
    as Hwrap.
  { intros op. rewrite tool_wrap. cbn [fst]. eexists. split; [reflexivity|].
    destruct (op history).1 as [response|e]; simpl.
    - split_and!; [split; [done|by intros [? ?]]|by intros ? [= <-]|done].
    - split_and!; [split; eauto|done|by intros ? [= <-]]. }
  cbv zeta. split_and!; intros; apply Hwrap.
Qed.

(** X15: when the identity response carries a user identifier, the user
    lookup returns a record, and the identifier, the record's [fullname] and
    the response's [BusinessUnitId] all convert to strings, ["get-user-info"]
    greets with these three strings, without an error flag. *)
Theorem get_user_info_greeting (d365 : Dynamics365) history props UserId
    details fullname made1 made2 id name unit :
  makeApiRequest w d365 "api/data/v9.2/WhoAmI" "GET" JUndefined None history
    = (Returned (JObj props), made1) →
  lookup_prop "UserId" props = Some UserId →
  truthy UserId = true →
  to_string UserId = Returned id →
  makeApiRequest w d365
    ("api/data/v9.2/systemusers(" +:+ id +:+ ")")
    "GET" JUndefined (Some prefer_annotations) (history ++ made1)
    = (Returned details, made2) →
  get_prop details "fullname" = Returned fullname →
  to_string fullname = Returned name →
  to_string (default JUndefined (lookup_prop "BusinessUnitId" props))
    = Returned unit →
  tool_get_user_info w d365 history
  = (Returned
       {| content_text :=
            Text ("Hi " +:+ name
                  +:+ ", your user ID is " +:+ id
                  +:+ " and your business unit ID is " +:+ unit);
          isError := false |},
     made1 ++ made2).
Proof.
  intros Hfirst Hid Htruthy Hconverts Hsecond Hfullname Hname Hunit.
  pose proof (makeWhoAmIRequest_cases w d365 history) as Hcases.
  cbv zeta in Hcases. rewrite Hfirst in Hcases. cbn [fst snd] in Hcases.
  unfold carries_UserId in Hcases. rewrite Hid, Htruthy in Hcases.
  destruct Hcases as (props' & UserId' & [= <-] & Hid' & Hrun).
  assert (UserId' = UserId) as -> by congruence.
  rewrite Hconverts in Hrun. cbv zeta in Hrun.
  rewrite Hsecond in Hrun. cbn [fst snd] in Hrun. rewrite Hfullname in Hrun.
  assert (∃ domainname, get_prop details "domainname" = Returned domainname)
    as [domainname Hdomainname].
  { destruct details; simpl in *; eauto; done. }
  rewrite Hdomainname in Hrun.
  rewrite tool_get_user_info_run, Hrun. cbn [fst snd].
  unfold greeting. simpl get_prop.
  rewrite lookup_assign_prop_eq.
  rewrite !(lookup_assign_prop_ne _ "UserId") by done.
  rewrite !(lookup_assign_prop_ne _ "BusinessUnitId") by done.
  rewrite Hid. simpl default at 1 2. by rewrite Hname, Hconverts, Hunit.
Qed.

(** X16: ["fetch-accounts"] shows the [value] member of the response and
    nothing else of it; a response object without that member gives the JSON
    text of [undefined] and no error, and a [null] response gives an error
    result with the engine's message for reading [value] of [null]. *)
Theorem tool_fetch_accounts_value (d365 : Dynamics365) history :
  (∀ props,
     (getAccounts w d365 history).1 = Returned (JObj props) →
     (tool_fetch_accounts w d365 history).1
     = Returned
         {| content_text :=
              Json (default JUndefined (lookup_prop "value" props));
            isError := false |}) ∧
  ((getAccounts w d365 history).1 = Returned JNull →
   (tool_fetch_accounts w d365 history).1
   = Returned
       {| content_text :=
            Text ("Error: Cannot read properties of null (reading 'value')"
                  +:+ ", please check your credentials and try again.");
          isError := true |}).
Proof.
  rewrite tool_fetch_accounts_run. cbn [fst].
  split; [intros props ->|intros ->]; reflexivity.
Qed.

(** X17: if the URL parser only ever throws instances of [Error], every
    error result of a tool shows the message of an [Error] that was thrown:
    by the gateway operation, or, in ["get-user-info"], by reading
    [FullName] of a response that is [null] or [undefined] or by converting
    one of the three members to a string, or, in ["fetch-accounts"], by
    reading [value] of such a response.  The fallback text for a thrown
    non-error is never used. *)
Theorem tools_show_the_message (d365 : Dynamics365) history :
  (∀ s e, URL_origin w s = Threw e → is_Some (error_class e)) →
  let wraps (op : Js Num (JsVal Num)) (tool : Js Num (ToolResult Num)) :=
    ∀ result,
      (tool history).1 = Returned result →
      isError result = true →
      ∃ cls message,
        (op history).1 = Threw (ErrorObj cls message) ∧
        content_text result
        = Text ("Error: " +:+ message
                +:+ ", please check your input and try again.") in
  (∀ result,
     (tool_get_user_info w d365 history).1 = Returned result →
     isError result = true →
     ∃ cls message,
       content_text result
       = Text ("Error: " +:+ message
               +:+ ", please check your credentials and try again.") ∧
       ((makeWhoAmIRequest w d365 history).1 = Threw (ErrorObj cls message) ∨
        ∃ response,
          (makeWhoAmIRequest w d365 history).1 = Returned response ∧
          (get_prop response "FullName" = Threw (ErrorObj cls message) ∨
           ∃ member v,
             member ∈ ["FullName"; "UserId"; "BusinessUnitId"] ∧
             get_prop response member = Returned v ∧
             to_string v = Threw (ErrorObj cls message)))) ∧
  (∀ result,
     (tool_fetch_accounts w d365 history).1 = Returned result →
     isError result = true →
     ∃ cls message,
       content_text result
       = Text ("Error: " +:+ message
               +:+ ", please check your credentials and try again.") ∧
       ((getAccounts w d365 history).1 = Threw (ErrorObj cls message) ∨
        ∃ response,
          (getAccounts w d365 history).1 = Returned response ∧
          get_prop response "value" = Threw (ErrorObj cls message))) ∧
  (∀ accountId,
     wraps (getAssociatedOpportunities w d365 accountId)
           (tool_get_associated_opportunities w d365 accountId)) ∧
  (∀ accountData,
     wraps (createAccount w d365 accountData)
           (tool_create_account w d365 accountData)) ∧
  (∀ accountId accountData,
     wraps (updateAccount w d365 accountId accountData)
           (tool_update_account w d365 accountId accountData)).
Proof.
  intros Hparser. cbv zeta.
  destruct (operations_throw_errors w d365 history Hparser)
    as (Hwhoami & Haccounts & _ & Hopportunities & Hcreate & Hupdate).
  assert (∀ op : Js Num (JsVal Num),
            (∀ e, (op history).1 = Threw e → is_Some (error_class e)) →
            ∀ result,
              (try_catch
                 (let* response := op in
                  ret {| content_text := Json response; isError := false |})
                 (λ error, ret (tool_failure check_input error)) history).1
              = Returned result →
              isError result = true →
              ∃ cls message,
                (op history).1 = Threw (ErrorObj cls message) ∧
                content_text result
                = Text ("Error: " +:+ message
                        +:+ ", please check your input and try again."))
    as Hwrap.
  { intros op Hop result. rewrite tool_wrap. cbn [fst].
    destruct (op history).1 as [response|e] eqn:Hrun; intros [= <-]; [done|].
    intros _. destruct (Hop e eq_refl) as [cls Hclass].
    destruct e as [cls' message|v]; [|done]. by exists cls', message. }
  split_and!.
  - intros result. rewrite tool_get_user_info_run. cbn [fst].
    destruct (makeWhoAmIRequest w d365 history).1 as [response|e].
    + destruct (greeting response) as [text|e] eqn:Hgreeting;
        intros [= <-]; [done|]. intros _.
      destruct (greeting_threw _ _ Hgreeting)
        as (cls & message & -> & Hsource).
      exists cls, message. split; [done|]. right. exists response.
      by split.
    + intros [= <-] _. destruct (Hwhoami e eq_refl) as [cls Hclass].
      destruct e as [cls' message|v]; [|done].
      exists cls', message. split; [done|by left].
  - intros result. rewrite tool_fetch_accounts_run. cbn [fst].
    destruct (getAccounts w d365 history).1 as [response|e].
    + destruct response; simpl; intros [= <-]; try done; intros _;
        eexists _, _; (split; [done|right; eexists; split; reflexivity]).
    + intros [= <-] _. destruct (Haccounts e eq_refl) as [cls Hclass].
      destruct e as [cls' message|v]; [|done].
      exists cls', message. split; [done|by left].
  - intros accountId. apply Hwrap, Hopportunities.
  - intros accountData. apply Hwrap, Hcreate.
  - intros accountId accountData. apply Hwrap, Hupdate.
Qed.

(** X18: through the tools, an empty account id is answered with the
    gateway's own message inside the tool's sentence, flagged as an error,
    without any platform call. *)
Theorem tool_validation_text (d365 : Dynamics365) history :
  tool_get_associated_opportunities w d365 "" history
  = (Returned
       {| content_text :=
            Text ("Error: Account ID is required to fetch opportunities."
                  +:+ ", please check your input and try again.");
          isError := true |},
     []) ∧
  ∀ accountData,
    tool_update_account w d365 "" accountData history
    = (Returned
         {| content_text :=
              Text ("Error: Account ID is required to update an account."
                    +:+ ", please check your input and try again.");
            isError := true |},
       []).
Proof.
  split; [|intros accountData];
    unfold tool_get_associated_opportunities, tool_update_account;
    by rewrite tool_wrap.
Qed.

End HostFurther.

(** * The sample deployment, run further *)

Lemma sample_grants_any api history :
  grants (Sample.world Sample.granted api) Sample.gateway history
    Sample.base_url "t0k3n".
Proof. split_and!; [reflexivity|reflexivity|discriminate]. Qed.

Lemma sample_parser_throws_errors auth api s (e : JsThrown SafeInteger) :
  URL_origin (Sample.world auth api) s = Threw e → is_Some (error_class e).
Proof.
  simpl. destruct (_ || _); [done|]. intros [= <-]. by eexists.
Qed.

Lemma makeApiRequest_returns_iff_witness :
  (makeApiRequest
     (Sample.world Sample.granted (SampleHost.always Sample.whoami))
     Sample.gateway "api/data/v9.2/accounts" "GET" JUndefined None []).1
  = Returned Sample.whoami.
Proof.
  apply makeApiRequest_returns_iff.
  exists Sample.base_url, "t0k3n", (Sample.json_response Sample.whoami).
  split_and!; [apply sample_grants_any|reflexivity..].
Defined.

Lemma failure_logged_once_witness :
  ∃ label cause,
    console_errors
      (makeApiRequest (Sample.world Sample.refused Sample.api) Sample.gateway
         "api/data/v9.2/accounts" "GET" JUndefined None []).2
    = [(label, cause)].
Proof.
  destruct (failure_logged_once
              (Sample.world Sample.refused Sample.api) Sample.gateway
              "api/data/v9.2/accounts" "GET" JUndefined None []
              Sample.base_url _ _ eq_refl eq_refl)
    as (label & cause & Hlogged & _).
  exists label, cause. exact Hlogged.
Defined.

Lemma unparsable_base_url_fails_every_operation_witness :
  getAccounts SampleHost.no_url Sample.gateway []
  = (Threw (ErrorObj "TypeError" "Invalid URL"), []).
Proof.
  destruct (unparsable_base_url_fails_every_operation
              SampleHost.no_url Sample.gateway []
              (ErrorObj "TypeError" "Invalid URL") eq_refl)
    as (_ & Haccounts & _).
  exact Haccounts.
Defined.

Lemma getAccounts_request_witness :
  fetches
    (getAccounts (Sample.world Sample.granted Sample.api) Sample.gateway []).2
  = [("https://org.crm.dynamics.com/api/data/v9.2/accounts",
      {| init_method := "GET";
         init_headers := standard_headers "t0k3n";
         init_body := None |})].
Proof.
  exact (proj1 (getAccounts_request
                  (Sample.world Sample.granted Sample.api) Sample.gateway []
                  Sample.base_url "t0k3n" (sample_grants_any _ _))).
Defined.

Lemma createAccount_request_witness :
  fetches
    (createAccount (Sample.world Sample.granted Sample.api) Sample.gateway
       (JObj [("name", JStr "X")]) []).2
  = [("https://org.crm.dynamics.com/api/data/v9.2/accounts",
      {| init_method := "POST";
         init_headers := standard_headers "t0k3n";
         init_body := Some (JObj [("name", JStr "X")]) |})].
Proof.
  exact (proj1 (createAccount_request
                  (Sample.world Sample.granted Sample.api) Sample.gateway
                  (JObj [("name", JStr "X")]) []
                  Sample.base_url "t0k3n" eq_refl (sample_grants_any _ _))).
Defined.

Lemma updateAccount_request_witness :
  fetches
    (updateAccount (Sample.world Sample.granted Sample.api) Sample.gateway
       "acc1" (JObj [("name", JStr "X")]) []).2
  = [("https://org.crm.dynamics.com/api/data/v9.2/accounts(acc1)",
      {| init_method := "PATCH";
         init_headers := standard_headers "t0k3n";
         init_body := Some (JObj [("name", JStr "X")]) |})].
Proof.
  assert ("acc1" ≠ "") as Hid by discriminate.
  exact (proj1 (updateAccount_request
                  (Sample.world Sample.granted Sample.api) Sample.gateway
                  "acc1" (JObj [("name", JStr "X")]) []
                  Sample.base_url "t0k3n" Hid eq_refl
                  (sample_grants_any _ _))).
Defined.

Lemma makeWhoAmIRequest_null_lookup_witness :
  (makeWhoAmIRequest (Sample.world Sample.granted SampleHost.null_lookup)
     Sample.gateway []).1
  = Threw (ErrorObj "TypeError"
             "Cannot read properties of null (reading 'domainname')").
Proof.
  destruct (makeWhoAmIRequest_null_lookup
              (Sample.world Sample.granted SampleHost.null_lookup)
              Sample.gateway []
              [("UserId", JStr "u1"); ("BusinessUnitId", JStr "b1");
               ("OrganizationId", JStr "o1")]
              (JStr "u1") "u1" _ _ eq_refl eq_refl eq_refl eq_refl eq_refl)
    as [Hrun _].
  rewrite Hrun. reflexivity.
Defined.

Lemma thrown_values_are_errors_witness :
  ∃ e,
    (getAccounts (Sample.world Sample.granted Sample.offline)
       Sample.gateway []).1 = Threw e ∧
    is_Some (error_class e).
Proof.
  eexists. split; [reflexivity|].
  destruct (thrown_values_are_errors
              (Sample.world Sample.granted Sample.offline) Sample.gateway []
              (sample_parser_throws_errors _ _))
    as (_ & Haccounts & _).
  apply Haccounts. reflexivity.
Defined.

Lemma started_gateway_uses_environment_witness :
  ∃ clientId clientSecret tenantId url,
    SampleHost.env !! "CLIENT_ID" = Some clientId ∧
    SampleHost.env !! "CLIENT_SECRET" = Some clientSecret ∧
    SampleHost.env !! "TENANT_ID" = Some tenantId ∧
    SampleHost.env !! "D365_URL" = Some url.
Proof.
  destruct (started_gateway_uses_environment
              (Sample.world Sample.granted Sample.api) SampleHost.env
              Sample.gateway "api/data/v9.2/accounts" "GET" JUndefined None []
              eq_refl)
    as (clientId & clientSecret & tenantId & url & H1 & H2 & H3 & H4 & _).
  by exists clientId, clientSecret, tenantId, url.
Defined.

Lemma tool_reports_failure_iff_witness :
  ∃ result,
    (tool_get_associated_opportunities
       (Sample.world Sample.granted Sample.api) Sample.gateway "acc1" []).1
    = Returned result ∧
    isError result = true.
Proof.
  destruct (tool_reports_failure_iff
              (Sample.world Sample.granted Sample.api) Sample.gateway [])
    as (Hopportunities & _).
  destruct (Hopportunities "acc1") as (result & Hrun & Hflag & _).
  exists result. split; [exact Hrun|].
  apply Hflag. eexists. reflexivity.
Defined.

Lemma get_user_info_greeting_witness :
  (tool_get_user_info (Sample.world Sample.granted Sample.api)
     Sample.gateway []).1
  = Returned
      {| content_text :=
           Text "Hi Jane Doe, your user ID is u1 and your business unit ID is b1";
         isError := false |}.
Proof.
  rewrite (get_user_info_greeting
             (Sample.world Sample.granted Sample.api) Sample.gateway []
             [("UserId", JStr "u1"); ("BusinessUnitId", JStr "b1");
              ("OrganizationId", JStr "o1")]
             (JStr "u1") Sample.user_details (JStr "Jane Doe") _ _
             "u1" "Jane Doe" "b1"
             eq_refl eq_refl eq_refl eq_refl eq_refl eq_refl eq_refl eq_refl).
  reflexivity.
Defined.

Lemma tool_fetch_accounts_value_witness :
  (tool_fetch_accounts
     (Sample.world Sample.granted (SampleHost.always Sample.whoami))
     Sample.gateway []).1
  = Returned {| content_text := Json JUndefined; isError := false |}.
Proof.
  exact (proj1 (tool_fetch_accounts_value
                  (Sample.world Sample.granted
                     (SampleHost.always Sample.whoami))
                  Sample.gateway [])
           [("UserId", JStr "u1"); ("BusinessUnitId", JStr "b1");
            ("OrganizationId", JStr "o1")] eq_refl).
Defined.

Lemma tools_show_the_message_witness :
  ∃ result message,
    (tool_fetch_accounts (Sample.world Sample.granted Sample.offline)
       Sample.gateway []).1 = Returned result ∧
    content_text result
    = Text ("Error: " +:+ message
            +:+ ", please check your credentials and try again.").
Proof.
  destruct (tools_show_the_message
              (Sample.world Sample.granted Sample.offline) Sample.gateway []
              (sample_parser_throws_errors _ _))
    as (_ & Haccounts & _).
  destruct (Haccounts _ eq_refl eq_refl) as (cls & message & Htext & _).
  eexists _, message. split; [reflexivity|exact Htext].
Defined.

(** C3, as stated, fails: with a base URL that start-up accepts and the URL
    parser rejects, an invocation of the primitive acquires no credential at
    all, and what it throws is the parser's error as it is, without the
    authentication wrapper. *)
Lemma unparsable_base_url_skips_credential :
  startup (<["D365_URL" := "org.crm.dynamics.com"]> SampleHost.env)
  = Started (new_Dynamics365 "client-id" "client-secret" "tenant-id"
               "org.crm.dynamics.com") ∧
  makeApiRequest (Sample.world Sample.granted Sample.api)
    (new_Dynamics365 "client-id" "client-secret" "tenant-id"
       "org.crm.dynamics.com")
    "api/data/v9.2/accounts" "GET" JUndefined None []
  = (Threw (ErrorObj "TypeError" "Invalid URL"), []) ∧
  ¬ starts_with auth_prefix "Invalid URL".
Proof.
  split_and!; [reflexivity|reflexivity|].
  intros [rest Hrest]. discriminate Hrest.
Qed.

(** C5, as stated, fails in two places.  A user lookup that succeeds with
    the body [null] leaves no merged result: after both requests the
    operation throws the engine's [TypeError], which is no failure of the
    second call.  And a response whose [UserId] is an object with a member
    [toString] carries a user identifier, yet no second request is made: the
    conversion of the identifier to a string throws. *)
Lemma makeWhoAmIRequest_without_merge :
  (∃ made,
     makeWhoAmIRequest (Sample.world Sample.granted SampleHost.null_lookup)
       Sample.gateway []
     = (Threw (ErrorObj "TypeError"
                 "Cannot read properties of null (reading 'domainname')"),
        made) ∧
     (fetches made).*1
     = ["https://org.crm.dynamics.com/api/data/v9.2/WhoAmI";
        "https://org.crm.dynamics.com/api/data/v9.2/systemusers(u1)"]) ∧
  (carries_UserId
     (JObj [("UserId", JObj [("toString", JStr "u1")])]
      : JsVal SafeInteger) = true ∧
   ∃ made,
     makeWhoAmIRequest
       (Sample.world Sample.granted
          (SampleHost.always
             (JObj [("UserId", JObj [("toString", JStr "u1")])])))
       Sample.gateway []
     = (Threw (ErrorObj "TypeError" "Cannot convert object to primitive value"),
        made) ∧
     (fetches made).*1
     = ["https://org.crm.dynamics.com/api/data/v9.2/WhoAmI"]).
Proof.
  split; [|split; [reflexivity|]]; eexists; split; reflexivity.
Qed.
